(** * stb-backend: admission control and resilient forwarding

    A shallow embedding of the three request handlers of the repository
    and of their rate-limit coordinators:

    - [ChatMem]: the chat handler with the in-memory [requestCounts] map;
    - [ChatRedis]: [api/chat.js], the chat handler with the three
      Upstash tiers;
    - [Tts]: the speech-synthesis handler with two Upstash tiers.

    The Upstash rate limiter, the Gemini client and [fetch] are external
    collaborators: they are parameters (type classes) of the handlers, so
    every theorem holds for any implementation of them. *)

From Stdlib Require Import ZArith Ascii String List Bool Lia.
From Stdlib Require QArith.
From stdpp Require Import base option gmap strings pretty.
Import ListNotations.

Local Open Scope string_scope.
Local Open Scope list_scope.
Local Open Scope Z_scope.

(** ** JavaScript values *)

Module Js.

(** The values the handlers inspect: what [JSON.parse] produces, plus
    [undefined] and function objects.  Numbers are rationals: the
    handlers only test them for truthiness. *)
#[warnings="-register-all"]
Inductive jsval : Type :=
  | VUndefined
  | VNull
  | VBool (b : bool)
  | VNum (q : QArith_base.Q)
  | VString (s : string)
  | VArray (elems : list jsval)
  | VObject (fields : list (string * jsval))
  | VFunction.

(** An optional string as a value: absent is [undefined]. *)
Definition optString (o : option string) : jsval :=
  match o with Some s => VString s | None => VUndefined end.

(** [ToBoolean]. *)
Definition truthy (v : jsval) : bool :=
  match v with
  | VUndefined | VNull => false
  | VBool b => b
  | VNum q => negb (QArith_base.Qnum q =? 0)
  | VString s => negb (String.eqb s "")
  | VArray _ | VObject _ | VFunction => true
  end.

Definition isString (v : jsval) : bool :=
  match v with VString _ => true | _ => false end.

Definition nullish (v : jsval) : bool :=
  match v with VUndefined | VNull => true | _ => false end.

Fixpoint lookupField (fields : list (string * jsval)) (name : string) : jsval :=
  match fields with
  | [] => VUndefined
  | (k, v) :: rest => if String.eqb k name then v else lookupField rest name
  end.

(** *** Strings

    A string is the sequence of the bytes of its UTF-8 encoding; a
    surrogate that stands alone is written as the three bytes of its own
    code.  The literals of the handlers are ASCII. *)

Definition byte (c : ascii) : N := N_of_ascii c.

(** A byte that continues a character begun before it. *)
Definition isContinuation (c : ascii) : bool :=
  ((128 <=? byte c) && (byte c <=? 191))%N.

(** The white space and the line terminators of ECMAScript, which
    [trim] removes, by the length of their encoding.  One byte: TAB, LF,
    VT, FF, CR and SP. *)
Definition isWhiteSpace1 (a : ascii) : bool :=
  ((9 <=? byte a) && (byte a <=? 13) || (byte a =? 32))%N.

(** Two bytes: U+00A0. *)
Definition isWhiteSpace2 (a b : ascii) : bool :=
  ((byte a =? 194) && (byte b =? 160))%N.

(** Three bytes: U+1680, U+2000 to U+200A, U+2028, U+2029, U+202F,
    U+205F, U+3000 and U+FEFF. *)
Definition isWhiteSpace3 (a b c : ascii) : bool :=
  ((byte a =? 225) && (byte b =? 154) && (byte c =? 128)
   || (byte a =? 226) && (byte b =? 128)
      && ((128 <=? byte c) && (byte c <=? 138)
          || (byte c =? 168) || (byte c =? 169) || (byte c =? 175))
   || (byte a =? 226) && (byte b =? 129) && (byte c =? 159)
   || (byte a =? 227) && (byte b =? 128) && (byte c =? 128)
   || (byte a =? 239) && (byte b =? 187) && (byte c =? 191))%N.

(** What follows the white-space character [s] starts with, if it
    starts with one. *)
Definition stripWhiteSpace (s : string) : option string :=
  match s with
  | String a r1 =>
      if isWhiteSpace1 a then Some r1
      else
        match r1 with
        | String b r2 =>
            if isWhiteSpace2 a b then Some r2
            else
              match r2 with
              | String c r3 => if isWhiteSpace3 a b c then Some r3 else None
              | EmptyString => None
              end
        | EmptyString => None
        end
  | EmptyString => None
  end.

Fixpoint trimStart (s : string) : string :=
  match s with
  | String a r1 =>
      if isWhiteSpace1 a then trimStart r1
      else
        match r1 with
        | String b r2 =>
            if isWhiteSpace2 a b then trimStart r2
            else
              match r2 with
              | String c r3 => if isWhiteSpace3 a b c then trimStart r3 else s
              | EmptyString => s
              end
        | EmptyString => s
        end
  | EmptyString => EmptyString
  end.

(** The string consists of white-space characters only. *)
Fixpoint allWhiteSpace (s : string) : bool :=
  match s with
  | String a r1 =>
      if isWhiteSpace1 a then allWhiteSpace r1
      else
        match r1 with
        | String b r2 =>
            if isWhiteSpace2 a b then allWhiteSpace r2
            else
              match r2 with
              | String c r3 => if isWhiteSpace3 a b c then allWhiteSpace r3 else false
              | EmptyString => false
              end
        | EmptyString => false
        end
  | EmptyString => true
  end.

(** The string without its longest ending of white space. *)
Fixpoint trimEnd (s : string) : string :=
  match s with
  | EmptyString => EmptyString
  | String c rest => if allWhiteSpace s then EmptyString else String c (trimEnd rest)
  end.

(** [String.prototype.trim]. *)
Definition trim (s : string) : string := trimEnd (trimStart s).

(** [s.length]: the number of UTF-16 code units, one for a character of
    up to three bytes and two for one of four. *)
Fixpoint utf16Length (s : string) : nat :=
  match s with
  | EmptyString => O
  | String c rest =>
      ((if isContinuation c then 0 else if (240 <=? byte c)%N then 2 else 1)
       + utf16Length rest)%nat
  end.

(** [s[0]] of a string that is not empty: its first UTF-16 code unit.
    That is the first character when it has up to three bytes, and the
    high surrogate of the first character when it has four. *)
Definition firstCodeUnit (s : string) : string :=
  match s with
  | EmptyString => EmptyString
  | String a rest =>
      if (byte a <? 192)%N then String a EmptyString
      else if (byte a <? 224)%N then substring 0 2 s
      else if (byte a <? 240)%N then substring 0 3 s
      else
        match rest with
        | String b (String c _) =>
            let high :=
              (55296 + ((byte a mod 8) * 256 + (byte b mod 64) * 4 + (byte c mod 64) / 16) - 64)%N in
            String (ascii_of_N 237)
              (String (ascii_of_N (128 + (high / 64) mod 64))
                 (String (ascii_of_N (128 + high mod 64)) EmptyString))
        | _ => s
        end
  end.

Definition numOfNat (n : nat) : jsval := VNum (QArith_base.inject_Z (Z.of_nat n)).

(** [v?.name] for a name that is not inherited from a prototype: own
    fields of an object, [length] of a string or an array, [undefined]
    elsewhere (and on [null]/[undefined], where plain [v.name] throws). *)
Definition optGet (v : jsval) (name : string) : jsval :=
  match v with
  | VObject fields => lookupField fields name
  | VString s => if String.eqb name "length" then numOfNat (utf16Length s) else VUndefined
  | VArray l => if String.eqb name "length" then numOfNat (List.length l) else VUndefined
  | _ => VUndefined
  end.

(** [v?.[0]]. *)
Definition optIndex0 (v : jsval) : jsval :=
  match v with
  | VArray (x :: _) => x
  | VString (String c rest) => VString (firstCodeUnit (String c rest))
  | VObject fields => lookupField fields "0"
  | _ => VUndefined
  end.

(** *** Searching a string *)

(** [String.prototype.includes], for a needle of ASCII characters. *)
Fixpoint includes (hay needle : string) : bool :=
  String.prefix needle hay ||
  match hay with
  | EmptyString => false
  | String _ rest => includes rest needle
  end.

(** *** Errors and promises *)

(** A thrown value as the handlers read it: [err.status] and
    [err.message]. *)
Record JsError : Type := MkError {
  err_status : option Z;
  err_message : option string
}.

(** [err.status === code]. *)
Definition statusIs (e : JsError) (code : Z) : bool :=
  match err_status e with
  | Some s => s =? code
  | None => false
  end.

(** [err.message?.includes(needle)], as a condition. *)
Definition messageIncludes (e : JsError) (needle : string) : bool :=
  match err_message e with
  | Some m => includes m needle
  | None => false
  end.

Definition TypeError (msg : string) : JsError :=
  {| err_status := None; err_message := Some msg |}.

(** A promise object.  [eventual] is what the promise settles to; it is
    reached through [await] only. *)
Record Promise (A : Type) : Type := MkPromise { eventual : A }.
Arguments MkPromise {A} _.
Arguments eventual {A} _.

Definition await {A} (p : Promise A) : A := eventual p.

(** Members every promise inherits from [Promise.prototype] and
    [Object.prototype]. *)
Definition promiseMembers : list string :=
  ["then"; "catch"; "finally"; "constructor"; "hasOwnProperty";
   "isPrototypeOf"; "propertyIsEnumerable"; "toLocaleString"; "toString";
   "valueOf"; "__proto__"; "__defineGetter__"; "__defineSetter__";
   "__lookupGetter__"; "__lookupSetter__"].

(** [p.name] on the promise object itself, not on the value it settles to. *)
Definition promiseGet {A} (p : Promise A) (name : string) : jsval :=
  if existsb (String.eqb name) promiseMembers then VFunction else VUndefined.

End Js.
Import Js.

(** ** The HTTP boundary *)

Record Socket : Type := { remoteAddress : option string }.

(** [req]: an [http.IncomingMessage] with the parsed body.  The socket is
    always there; its [remoteAddress] may be undefined. *)
Record Request : Type := {
  method : string;
  headers : gmap string string;
  socket : Socket;
  body : jsval
}.

Inductive ResBody : Type :=
  | Json (v : jsval)
  | End.

Record Response : Type := {
  status : Z;
  res_headers : list (string * string);
  res_body : ResBody
}.

(** How a handler invocation ends: a response was sent, or an exception
    escaped the handler. *)
Inductive HandlerOutcome : Type :=
  | Responded (r : Response)
  | Unhandled (e : JsError).

(** What one invocation did upstream: its outcome, the number of upstream
    calls and the delays (ms) it slept, oldest first. *)
Record Run : Type := {
  outcome : HandlerOutcome;
  attempts : nat;
  waits : list Z
}.

Definition respond (code : Z) (hdrs : list (string * string)) (v : jsval) : HandlerOutcome :=
  Responded {| status := code; res_headers := hdrs; res_body := Json v |}.

Definition noUpstream (o : HandlerOutcome) : Run :=
  {| outcome := o; attempts := 0; waits := [] |}.

(** The [TypeError] of [const { field } = req.body] on a body that is
    [undefined] or [null]. *)
Definition cannotDestructure (field : string) (b : jsval) : JsError :=
  TypeError ("Cannot destructure property '" +:+ field +:+ "' of 'req.body' as it is "
             +:+ match b with VNull => "null" | _ => "undefined" end +:+ ".").

(** [a || b] on optional strings: the empty string is falsy. *)
Definition orElse (a : option string) (b : option string) : option string :=
  match a with
  | Some s => if String.eqb s "" then b else a
  | None => b
  end.

(** [req.headers['x-forwarded-for'] || req.socket.remoteAddress || 'unknown'] *)
Definition clientIpOf (req : Request) : string :=
  match orElse (orElse (headers req !! "x-forwarded-for") (remoteAddress (socket req)))
               (Some "unknown") with
  | Some ip => ip
  | None => "unknown"
  end.

(** A settled promise, as [await] sees it inside [try]. *)
Inductive Settled (A : Type) : Type :=
  | Resolved (a : A)
  | Rejected (e : JsError).
Arguments Resolved {A} _.
Arguments Rejected {A} _.

(** ** The chat pipeline shared by the two chat handlers

    From [const { message, conversationHistory = [] } = req.body] to the
    end of the [catch] block, [api/chat.js] and the in-memory chat handler
    are the same code (they differ in the system prompt only). *)

Module Chat.

(** One entry of the history handed to [startChat]:
    [{ role: msg.role, parts: [{ text: msg.content }] }]. *)
Record Content : Type := { role : jsval; text : jsval }.

(** [result.response.text()] may throw. *)
Record ChatResult : Type := { response_text : Settled string }.

(** The Gemini SDK.  [getGenerativeModel] only builds the model object;
    [startChat] may refuse a history; [sendMessage chat message n] is the
    outcome of the [n]-th call (from 0) of [chat.sendMessage(message)] in
    one request. *)
Class GeminiSdk : Type := {
  ChatSession : Type;
  startChat : list Content -> Settled ChatSession;
  sendMessage : ChatSession -> jsval -> nat -> Settled ChatResult
}.

Definition MAX_RETRIES : nat := 2.

(** How the retry loop is left. *)
Inductive LoopEnd : Type :=
  | Broke (result : ChatResult)   (* [break] after a successful call *)
  | Threw (err : JsError)         (* [throw err] *)
  | Fell.                         (* the [while] condition is false *)

Record LoopRun : Type := {
  loop_end : LoopEnd;
  loop_attempts : nat;
  loop_waits : list Z
}.

(** [while (retries <= maxRetries) { try { ... } catch (err) { ... } }]
    with its two constants as arguments; [None] when [fuel] iterations
    were not enough. *)
Fixpoint retryLoop (send : nat -> Settled ChatResult) (maxRetries : nat) (baseDelay : Z)
    (fuel retries calls : nat) (slept : list Z) : option LoopRun :=
  if (maxRetries <? retries)%nat then
    Some {| loop_end := Fell; loop_attempts := calls; loop_waits := slept |}
  else
    match fuel with
    | O => None
    | S fuel' =>
        match send calls with
        | Resolved result =>
            Some {| loop_end := Broke result; loop_attempts := S calls; loop_waits := slept |}
        | Rejected err =>
            if statusIs err 503 && (retries <? maxRetries)%nat then
              let retries' := S retries in
              retryLoop send maxRetries baseDelay fuel' retries' (S calls)
                        (slept ++ [baseDelay * Z.of_nat retries'])
            else
              Some {| loop_end := Threw err; loop_attempts := S calls; loop_waits := slept |}
        end
    end.

(** The loop as the handlers run it: [retries = 0], [MAX_RETRIES = 2],
    [setTimeout(resolve, 1000 * retries)]. *)
Definition sendWithRetry (send : nat -> Settled ChatResult) : option LoopRun :=
  retryLoop send MAX_RETRIES 1000 (S MAX_RETRIES) 0 0 [].

Definition overloadedMessage : string :=
  "AI service is temporarily overloaded. Please try again in a moment.".
Definition quotaMessage : string :=
  "Service temporarily unavailable. Please try again later.".

(** The [catch (error)] block of the handler. *)
Definition errorResponse (NODE_ENV : option string) (error : JsError) : HandlerOutcome :=
  if statusIs error 503 || messageIncludes error "overloaded" then
    respond 503 [] (VObject [("error", VString overloadedMessage)])
  else if messageIncludes error "quota" then
    respond 503 [] (VObject [("error", VString quotaMessage)])
  else
    respond 500 []
      (VObject [("error", VString "Failed to process chat request");
                ("details",
                 if bool_decide (NODE_ENV = Some "development")
                 then optString (err_message error) else VUndefined)]).

(** The failure taxonomy the [catch] block distinguishes, in the order
    of its tests. *)
Inductive FailureClass : Type :=
  | UpstreamUnavailable
  | UpstreamQuotaExhausted
  | Internal.

Definition classify (error : JsError) : FailureClass :=
  if statusIs error 503 || messageIncludes error "overloaded" then UpstreamUnavailable
  else if messageIncludes error "quota" then UpstreamQuotaExhausted
  else Internal.

(** [conversationHistory.map(msg => ({ role: msg.role, parts: [{ text: msg.content }] }))]
    on the elements of an array. *)
Fixpoint mapHistory (msgs : list jsval) : Settled (list Content) :=
  match msgs with
  | [] => Resolved []
  | msg :: rest =>
      match msg with
      | VUndefined =>
          Rejected (TypeError "Cannot read properties of undefined (reading 'role')")
      | VNull =>
          Rejected (TypeError "Cannot read properties of null (reading 'role')")
      | _ =>
          match mapHistory rest with
          | Resolved cs =>
              Resolved ({| role := optGet msg "role"; text := optGet msg "content" |} :: cs)
          | Rejected e => Rejected e
          end
      end
  end.

(** The same on [conversationHistory], whose default [[]] replaces
    [undefined] only. *)
Definition buildHistory (conversationHistory : jsval) : Settled (list Content) :=
  match conversationHistory with
  | VUndefined => Resolved []
  | VArray msgs => mapHistory msgs
  | VNull => Rejected (TypeError "Cannot read properties of null (reading 'map')")
  | _ => Rejected (TypeError "conversationHistory.map is not a function")
  end.

Definition caught (NODE_ENV : option string) (e : JsError) (calls : nat) (slept : list Z) : Run :=
  {| outcome := errorResponse NODE_ENV e; attempts := calls; waits := slept |}.

(** The handler from the destructuring of [req.body] on, inside its
    [try]/[catch].  [iso] is [new Date().toISOString()]. *)
Definition answer `{GeminiSdk} (NODE_ENV : option string) (iso : string) (req : Request)
    : option Run :=
  if nullish (body req) then
    Some (caught NODE_ENV (cannotDestructure "message" (body req)) 0 [])
  else
    let message := optGet (body req) "message" in
    let conversationHistory := optGet (body req) "conversationHistory" in
    if negb (truthy message) then
      Some (noUpstream (respond 400 [] (VObject [("error", VString "Message is required")])))
    else
      match buildHistory conversationHistory with
      | Rejected e => Some (caught NODE_ENV e 0 [])
      | Resolved history =>
          match startChat history with
          | Rejected e => Some (caught NODE_ENV e 0 [])
          | Resolved chat =>
              match sendWithRetry (sendMessage chat message) with
              | None => None
              | Some lr =>
                  match loop_end lr with
                  | Threw e => Some (caught NODE_ENV e (loop_attempts lr) (loop_waits lr))
                  | Fell =>
                      Some (caught NODE_ENV
                              (TypeError "Cannot read properties of undefined (reading 'response')")
                              (loop_attempts lr) (loop_waits lr))
                  | Broke result =>
                      match response_text result with
                      | Rejected e => Some (caught NODE_ENV e (loop_attempts lr) (loop_waits lr))
                      | Resolved text =>
                          Some {| outcome :=
                                    respond 200 []
                                      (VObject [("response", VString text);
                                                ("timestamp", VString iso)]);
                                  attempts := loop_attempts lr;
                                  waits := loop_waits lr |}
                      end
                  end
              end
          end
      end.

End Chat.

(** ** The chat handler with in-memory rate limiting *)

Module ChatMem.

(** A value of [requestCounts]: [{ count, resetTime }]. *)
Record RateRecord : Type := { count : Z; resetTime : Z }.

(** [checkRateLimit(ip)] with its two constants as arguments.  [now] is
    [Date.now()]; the map is [requestCounts] before and after. *)
Definition checkRateLimitWith (RATE_LIMIT RATE_WINDOW : Z) (ip : string) (now : Z)
    (requestCounts : gmap string RateRecord) : bool * gmap string RateRecord :=
  let fresh := {| count := 0; resetTime := now + RATE_WINDOW |} in
  let record := default fresh (requestCounts !! ip) in
  let record := if resetTime record <? now then fresh else record in
  let record := {| count := count record + 1; resetTime := resetTime record |} in
  (count record <=? RATE_LIMIT, <[ip := record]> requestCounts).

Definition RATE_LIMIT : Z := 100.
Definition RATE_WINDOW : Z := 60 * 60 * 1000.

Definition checkRateLimit : string -> Z -> gmap string RateRecord -> bool * gmap string RateRecord :=
  checkRateLimitWith RATE_LIMIT RATE_WINDOW.

(** Successive calls [(ip, now)] against one map: the answers in order
    and the final map. *)
Fixpoint checkAll (limit window : Z) (calls : list (string * Z))
    (requestCounts : gmap string RateRecord) : list bool * gmap string RateRecord :=
  match calls with
  | [] => ([], requestCounts)
  | (ip, now) :: rest =>
      let (ok, m) := checkRateLimitWith limit window ip now requestCounts in
      let (oks, m') := checkAll limit window rest m in
      (ok :: oks, m')
  end.

(** [handler(req, res)].  [None]: the retry loop ran out of fuel. *)
Definition handler `{Chat.GeminiSdk} (NODE_ENV : option string) (now : Z) (iso : string)
    (req : Request) (requestCounts : gmap string RateRecord)
    : option (Run * gmap string RateRecord) :=
  if String.eqb (method req) "OPTIONS" then
    Some (noUpstream (respond 200 [] (VObject [])), requestCounts)
  else if negb (String.eqb (method req) "POST") then
    Some (noUpstream (respond 405 [] (VObject [("error", VString "Method not allowed")])),
          requestCounts)
  else
    let clientIp := clientIpOf req in
    let (admitted, requestCounts') := checkRateLimit clientIp now requestCounts in
    if negb admitted then
      Some (noUpstream
              (respond 429 [] (VObject [("error", VString "Rate limit exceeded. Please try again later.")])),
            requestCounts')
    else
      match Chat.answer NODE_ENV iso req with
      | Some run => Some (run, requestCounts')
      | None => None
      end.

End ChatMem.

(** ** The Upstash rate limiter *)

Module Upstash.

Record Redis : Type := { url : string; token : string }.

(** [new Ratelimit({ redis, limiter: Ratelimit.slidingWindow(tokens, window), prefix })] *)
Record Ratelimit : Type := {
  redis : Redis;
  tokens : Z;
  window : string;
  prefix : string
}.

(** The fields of the answer of [limit] that the handlers read. *)
Record RatelimitResponse : Type := { success : bool; reset : Z }.

(** [ratelimit.limit(key)] against the store behind it: the settled
    answer and the store afterwards. *)
Class Limiter (Store : Type) : Type :=
  limit : Ratelimit -> string -> Store -> Settled RatelimitResponse * Store.

(** The store and the [limit] calls made so far, oldest first, each with
    the limiter, the key and the settled answer. *)
Record World (Store : Type) : Type := {
  store : Store;
  limitCalls : list (Ratelimit * string * Settled RatelimitResponse)
}.
Arguments store {Store} _.
Arguments limitCalls {Store} _.

Definition callLimit {Store} `{Limiter Store} (rl : Ratelimit) (key : string)
    (w : World Store) : Settled RatelimitResponse * World Store :=
  let (answer, s) := limit rl key (store w) in
  (answer, {| store := s; limitCalls := limitCalls w ++ [(rl, key, answer)] |}).

(** The object [checkRateLimit] returns; absent fields are [None]. *)
Record Decision : Type := {
  allowed : bool;
  reason : option string;
  message : option string;
  resetTime : option Z
}.

Definition allow : Decision :=
  {| allowed := true; reason := None; message := None; resetTime := None |}.

(** A truthy environment variable. *)
Definition isSet (v : option string) : bool :=
  match v with
  | Some s => negb (String.eqb s "")
  | None => false
  end.

End Upstash.

(** ** [api/chat.js]: the chat handler with three Upstash tiers *)

Module ChatRedis.
Import Upstash.

(** The module-level [let] bindings. *)
Record Limiters : Type := {
  redis : option Redis;
  perUserRatelimit : option Ratelimit;
  globalDailyRatelimit : option Ratelimit;
  globalRpmRatelimit : option Ratelimit
}.

(** Module initialisation from [process.env]. *)
Definition init (UPSTASH_REDIS_REST_URL UPSTASH_REDIS_REST_TOKEN : option string) : Limiters :=
  if isSet UPSTASH_REDIS_REST_URL && isSet UPSTASH_REDIS_REST_TOKEN then
    let r := {| url := default "" UPSTASH_REDIS_REST_URL;
                token := default "" UPSTASH_REDIS_REST_TOKEN |} in
    {| redis := Some r;
       perUserRatelimit :=
         Some {| Upstash.redis := r; tokens := 50; window := "24 h"; prefix := "ratelimit:user" |};
       globalDailyRatelimit :=
         Some {| Upstash.redis := r; tokens := 900; window := "24 h";
                 prefix := "ratelimit:global:daily" |};
       globalRpmRatelimit :=
         Some {| Upstash.redis := r; tokens := 12; window := "1 m";
                 prefix := "ratelimit:global:rpm" |} |}
  else
    {| redis := None; perUserRatelimit := None;
       globalDailyRatelimit := None; globalRpmRatelimit := None |}.

Definition deny (why msg : string) (resetAt : Z) : Decision :=
  {| allowed := false; reason := Some why; message := Some msg; resetTime := Some resetAt |}.

(** The body of [async function checkRateLimit(ip)], run to completion. *)
Definition checkRateLimit {Store} `{Limiter Store} (m : Limiters) (ip : string)
    (w : World Store) : Decision * World Store :=
  match redis m, perUserRatelimit m, globalDailyRatelimit m, globalRpmRatelimit m with
  | Some _, Some perUser, Some globalDaily, Some globalRpm =>
      let (globalDailyResult, w1) := callLimit globalDaily "global" w in
      match globalDailyResult with
      | Rejected _ => (allow, w1)
      | Resolved daily =>
          if negb (success daily) then
            (deny "daily_limit" "Daily request limit reached. Please try again tomorrow."
                  (reset daily), w1)
          else
            let (globalRpmResult, w2) := callLimit globalRpm "global" w1 in
            match globalRpmResult with
            | Rejected _ => (allow, w2)
            | Resolved rpm =>
                if negb (success rpm) then
                  (deny "rpm_limit" "Too many requests per minute. Please wait a moment."
                        (reset rpm), w2)
                else
                  let (userResult, w3) := callLimit perUser ip w2 in
                  match userResult with
                  | Rejected _ => (allow, w3)
                  | Resolved user =>
                      if negb (success user) then
                        (deny "user_limit"
                              "You have reached your daily limit of 50 questions. Please try again tomorrow."
                              (reset user), w3)
                      else (allow, w3)
                  end
            end
      end
  | _, _, _, _ => (allow, w)
  end.

(** What one invocation of the handler leaves behind: the run, and the
    promise of the admission check it started, if any. *)
Record Invocation (Store : Type) : Type := {
  run : option Run;
  admission : option (Promise (Decision * World Store))
}.
Arguments run {Store} _.
Arguments admission {Store} _.

(** [handler(req, res)].  [checkRateLimit(clientIp)] is called without
    [await]: [rateLimitResult] is the promise. *)
Definition handler {Store} `{Limiter Store} `{Chat.GeminiSdk} (m : Limiters)
    (NODE_ENV : option string) (iso : string) (req : Request) (w : World Store)
    : Invocation Store :=
  if String.eqb (method req) "OPTIONS" then
    {| run := Some (noUpstream (respond 200 [] (VObject []))); admission := None |}
  else if negb (String.eqb (method req) "POST") then
    {| run := Some (noUpstream (respond 405 [] (VObject [("error", VString "Method not allowed")])));
       admission := None |}
  else
    let clientIp := clientIpOf req in
    let rateLimitResult := MkPromise (checkRateLimit m clientIp w) in
    if negb (truthy (promiseGet rateLimitResult "allowed")) then
      {| run := Some (noUpstream
                        (respond 429 []
                           (VObject [("error", promiseGet rateLimitResult "message");
                                     ("reason", promiseGet rateLimitResult "reason")])));
         admission := Some rateLimitResult |}
    else
      {| run := Chat.answer NODE_ENV iso req; admission := Some rateLimitResult |}.

End ChatRedis.

(** ** The speech-synthesis handler *)

Module Tts.
Import Upstash.

Record Limiters : Type := {
  redis : option Redis;
  perUserRatelimit : option Ratelimit;
  globalRpmRatelimit : option Ratelimit
}.

Definition init (UPSTASH_REDIS_REST_URL UPSTASH_REDIS_REST_TOKEN : option string) : Limiters :=
  if isSet UPSTASH_REDIS_REST_URL && isSet UPSTASH_REDIS_REST_TOKEN then
    let r := {| url := default "" UPSTASH_REDIS_REST_URL;
                token := default "" UPSTASH_REDIS_REST_TOKEN |} in
    {| redis := Some r;
       perUserRatelimit :=
         Some {| Upstash.redis := r; tokens := 500; window := "24 h";
                 prefix := "ratelimit:tts:user" |};
       globalRpmRatelimit :=
         Some {| Upstash.redis := r; tokens := 10; window := "1 m";
                 prefix := "ratelimit:tts:global:rpm" |} |}
  else
    {| redis := None; perUserRatelimit := None; globalRpmRatelimit := None |}.

Definition corsHeaders : list (string * string) :=
  [("Access-Control-Allow-Origin", "*");
   ("Access-Control-Allow-Methods", "POST, OPTIONS");
   ("Access-Control-Allow-Headers", "Content-Type, X-App-Secret")].

Definition deny (msg : string) : Decision :=
  {| allowed := false; reason := None; message := Some msg; resetTime := None |}.

(** [async function checkRateLimit(ip)]. *)
Definition checkRateLimit {Store} `{Limiter Store} (m : Limiters) (ip : string)
    (w : World Store) : Decision * World Store :=
  match redis m, perUserRatelimit m, globalRpmRatelimit m with
  | Some _, Some perUser, Some globalRpm =>
      let (rpmResult, w1) := callLimit globalRpm "global" w in
      match rpmResult with
      | Rejected _ => (allow, w1)
      | Resolved rpm =>
          if negb (success rpm) then
            (deny "Too many requests. Please wait a moment.", w1)
          else
            let (userResult, w2) := callLimit perUser ip w1 in
            match userResult with
            | Rejected _ => (allow, w2)
            | Resolved user =>
                if negb (success user) then
                  (deny "Daily TTS limit reached. Please try again tomorrow.", w2)
                else (allow, w2)
            end
      end
  | _, _, _ => (allow, w)
  end.

(** The [Response] of [fetch]: [ok], [status], and what [text()] and
    [json()] settle to. *)
Record FetchResponse : Type := {
  ok : bool;
  fetch_status : Z;
  fetch_text : Settled string;
  fetch_json : Settled jsval
}.

(** [fetch(url, { method: 'POST', headers, body: JSON.stringify(payload) })] *)
Class Fetch : Type :=
  fetch : string -> jsval -> Settled FetchResponse.

Definition endpoint (GEMINI_API_KEY : option string) : string :=
  "https://generativelanguage.googleapis.com/v1beta/models/gemini-2.5-flash-preview-tts:generateContent?key="
  +:+ default "undefined" GEMINI_API_KEY.

Definition payload (text : string) : jsval :=
  VObject
    [("contents",
      VArray [VObject [("role", VString "user");
                       ("parts", VArray [VObject [("text", VString (trim text))]])]]);
     ("generationConfig",
      VObject
        [("responseModalities", VArray [VString "AUDIO"]);
         ("speechConfig",
          VObject [("voiceConfig",
                    VObject [("prebuiltVoiceConfig",
                              VObject [("voiceName", VString "Kore")])])])])].

(** [!text || typeof text !== 'string' || text.trim().length === 0]; the
    length is 0 for the empty string only. *)
Definition invalidText (text : jsval) : bool :=
  negb (truthy text) || negb (isString text) ||
  match text with
  | VString s => (String.length (trim s) =? 0)%nat
  | _ => false
  end.

(** The condition in words: the text is missing or not a string, or it
    is a string of white space only. *)
Definition blankText (text : jsval) : bool :=
  match text with
  | VString s => allWhiteSpace s
  | _ => true
  end.

(** [data?.candidates?.[0]?.content?.parts?.[0]] *)
Definition firstPart (data : jsval) : jsval :=
  optIndex0 (optGet (optGet (optIndex0 (optGet data "candidates")) "content") "parts").

Definition sent (code : Z) (v : jsval) (calls : nat) : Run :=
  {| outcome := respond code corsHeaders v; attempts := calls; waits := [] |}.

(** The [try] block of the handler and its [catch]. *)
Definition synthesize `{Fetch} (GEMINI_API_KEY : option string) (text : string) : Run :=
  let internal := sent 500 (VObject [("error", VString "Failed to synthesize speech")]) 1 in
  match fetch (endpoint GEMINI_API_KEY) (payload text) with
  | Rejected _ => internal
  | Resolved geminiRes =>
      if negb (ok geminiRes) then
        match fetch_text geminiRes with
        | Rejected _ => internal
        | Resolved _ =>
            sent 502
              (VObject [("error",
                         VString ("Gemini TTS error: " +:+ pretty (fetch_status geminiRes)))]) 1
        end
      else
        match fetch_json geminiRes with
        | Rejected _ => internal
        | Resolved data =>
            let part := firstPart data in
            if negb (truthy (optGet (optGet part "inlineData") "data")) then
              sent 502 (VObject [("error", VString "No audio data returned from Gemini TTS")]) 1
            else
              sent 200
                (VObject [("audioData", optGet (optGet part "inlineData") "data");
                          ("mimeType", optGet (optGet part "inlineData") "mimeType")]) 1
        end
  end.

(** [handler(req, res)]. *)
Definition handler {Store} `{Limiter Store} `{Fetch} (m : Limiters)
    (GEMINI_API_KEY : option string) (req : Request) (w : World Store)
    : Run * World Store :=
  if String.eqb (method req) "OPTIONS" then
    (noUpstream (Responded {| status := 200; res_headers := corsHeaders; res_body := End |}), w)
  else if negb (String.eqb (method req) "POST") then
    (sent 405 (VObject [("error", VString "Method not allowed")]) 0, w)
  else
    let clientIp := clientIpOf req in
    let (rateLimitResult, w') := await (MkPromise (checkRateLimit m clientIp w)) in
    if negb (allowed rateLimitResult) then
      (sent 429 (VObject [("error", optString (message rateLimitResult))]) 0, w')
    else if nullish (body req) then
      (noUpstream (Unhandled (cannotDestructure "text" (body req))), w')
    else
      let text := optGet (body req) "text" in
      if invalidText text then
        (sent 400 (VObject [("error", VString "text is required")]) 0, w')
      else
        match text with
        | VString s => (synthesize GEMINI_API_KEY s, w')
        | _ =>
            (* not reached: [invalidText] holds of every value that is not a string *)
            (sent 400 (VObject [("error", VString "text is required")]) 0, w')
        end.

End Tts.

(** ** Projections used in the statements *)

(** The answers given to the calls of one key, out of the answers to
    [calls]. *)
Fixpoint answersFor (ip : string) (calls : list (string * Z)) (answers : list bool) : list bool :=
  match calls, answers with
  | (k, _) :: calls', a :: answers' =>
      if String.eqb k ip then a :: answersFor ip calls' answers'
      else answersFor ip calls' answers'
  | _, _ => []
  end.

(** How many of [calls] are for [ip]. *)
Fixpoint callsOf (ip : string) (calls : list (string * Z)) : nat :=
  match calls with
  | [] => O
  | (k, _) :: calls' => if String.eqb k ip then S (callsOf ip calls') else callsOf ip calls'
  end.

(** The status code of the response, if one was sent. *)
Definition statusOf (o : HandlerOutcome) : option Z :=
  match o with
  | Responded r => Some (status r)
  | Unhandled _ => None
  end.

(** The headers of the response, if one was sent. *)
Definition headersOf (o : HandlerOutcome) : option (list (string * string)) :=
  match o with
  | Responded r => Some (res_headers r)
  | Unhandled _ => None
  end.

(** A response was sent, with one of the status codes [codes] and the
    headers [hdrs]. *)
Definition answersWith (codes : list Z) (hdrs : list (string * string))
    (o : HandlerOutcome) : Prop :=
  exists r, o = Responded r /\ In (status r) codes /\ res_headers r = hdrs.

(** The entry [startChat] gets for one message of the history. *)
Definition contentOf (msg : jsval) : Chat.Content :=
  {| Chat.role := optGet msg "role"; Chat.text := optGet msg "content" |}.

(** A history the handler cannot convert: a value that is neither
    [undefined] nor an array, or an array with an entry that is [null]
    or [undefined]. *)
Definition unreadableHistory (h : jsval) : bool :=
  match h with
  | VUndefined => false
  | VArray msgs => existsb nullish msgs
  | _ => true
  end.

(** The calls of [calls] that are for [ip]. *)
Definition callsFor (ip : string) (calls : list (string * Z)) : list (string * Z) :=
  List.filter (fun c => String.eqb c.1 ip) calls.

(** ** Concrete collaborators for the examples *)

Module Sample.
Import Upstash.

Definition windowMs (w : string) : Z :=
  if String.eqb w "24 h" then 86400000 else if String.eqb w "1 m" then 60000 else 0.

(** Modelled from the spec: the Counter Store of sections 2 and 6, an
    external service that is not part of the repository.  One call
    increments the counter named by the tier's prefix and the key and
    returns the count after the increment and the reset time; the tier is
    violated when the count exceeds its limit.  One window, which opened
    at time 0. *)
Definition counterLimit : Limiter (gmap string Z) :=
  fun rl key counters =>
    let name := prefix rl +:+ ":" +:+ key in
    let n := default 0 (counters !! name) + 1 in
    (Resolved {| success := n <=? tokens rl; reset := windowMs (window rl) |},
     <[name := n]> counters).

(** A store that cannot be reached: every call is rejected. *)
Definition outageLimit : Limiter (gmap string Z) :=
  fun _ _ counters =>
    (Rejected {| err_status := None; err_message := Some "fetch failed" |}, counters).

Definition overloaded : JsError :=
  {| err_status := Some 503; err_message := Some "The model is overloaded. Please try again later." |}.

Definition quotaExceeded : JsError :=
  {| err_status := Some 429;
     err_message := Some "You exceeded your current quota, please check your plan and billing details." |}.

(** An SDK whose [sendMessage] answers from a script, call by call. *)
Definition scriptedSdk (script : list (Settled Chat.ChatResult)) : Chat.GeminiSdk :=
  {| Chat.ChatSession := unit;
     Chat.startChat := fun _ => Resolved tt;
     Chat.sendMessage := fun _ _ n => nth n script (Rejected overloaded) |}.

Definition reply (s : string) : Settled Chat.ChatResult :=
  Resolved {| Chat.response_text := Resolved s |}.

Definition fixedFetch (r : Settled Tts.FetchResponse) : Tts.Fetch := fun _ _ => r.

Definition post (ip : string) (b : jsval) : Request :=
  {| method := "POST";
     headers := {[ "x-forwarded-for" := ip ]};
     socket := {| remoteAddress := None |};
     body := b |}.

Definition ask (ip question : string) : Request :=
  post ip (VObject [("message", VString question)]).

Definition speak (ip text : string) : Request :=
  post ip (VObject [("text", VString text)]).

(** The string of the given bytes. *)
Definition bytes (l : list N) : string :=
  fold_right (fun n s => String (ascii_of_N n) s) EmptyString l.

(** SP, U+3000, LF and U+00A0. *)
Definition blanks : string := bytes [32; 227; 128; 128; 10; 194; 160]%N.

(** A word of Telugu, of three characters: U+0C06 U+0C26 U+0C3F. *)
Definition telugu : string := bytes [224; 176; 134; 224; 176; 166; 224; 176; 191]%N.

Definition start (counters : gmap string Z) : World (gmap string Z) :=
  {| store := counters; limitCalls := [] |}.

Definition chatLimiters : ChatRedis.Limiters :=
  ChatRedis.init (Some "https://redis.example") (Some "secret").

Definition ttsLimiters : Tts.Limiters :=
  Tts.init (Some "https://redis.example") (Some "secret").

End Sample.

(** * Theorems *)

(** ** In-memory rate limiting *)

Section InMemory.
Import ChatMem.

Variables (L W : Z).

Lemma check_fresh ip now (m : gmap string RateRecord) :
  m !! ip = None ->
  checkRateLimitWith L W ip now m
  = (1 <=? L, <[ip := {| count := 1; resetTime := now + W |}]> m).
Proof.
  intros Hnone. unfold checkRateLimitWith. rewrite Hnone. simpl.
  destruct (now + W <? now); reflexivity.
Qed.

Lemma check_within ip now r (m : gmap string RateRecord) :
  m !! ip = Some r -> now <= resetTime r ->
  checkRateLimitWith L W ip now m
  = (count r + 1 <=? L, <[ip := {| count := count r + 1; resetTime := resetTime r |}]> m).
Proof.
  intros Hsome Hle. unfold checkRateLimitWith. rewrite Hsome. simpl.
  destruct (Z.ltb_spec (resetTime r) now); [lia | reflexivity].
Qed.

Lemma check_other ip ip' now (m : gmap string RateRecord) :
  ip <> ip' -> (checkRateLimitWith L W ip now m).2 !! ip' = m !! ip'.
Proof. intros Hne. unfold checkRateLimitWith. simpl. by rewrite lookup_insert_ne. Qed.

Lemma map_seq_shift (f : nat -> bool) (a n : nat) :
  map f (seq (S a) n) = map (fun k => f (S k)) (seq a n).
Proof. rewrite <- seq_shift, map_map. reflexivity. Qed.

(** Within the window of the record of [ip], each call of [ip] counts
    one up, whatever calls of other keys come in between. *)
Lemma checkAll_within ip (calls : list (string * Z)) :
  forall (m : gmap string RateRecord) r,
    m !! ip = Some r ->
    Forall (fun c => c.1 = ip -> c.2 <= resetTime r) calls ->
    answersFor ip calls (checkAll L W calls m).1
    = map (fun k => count r + Z.of_nat k <=? L) (seq 1 (callsOf ip calls)).
Proof.
  induction calls as [|[k t] calls IH]; intros m r Hm Hall; [reflexivity|].
  apply Forall_cons in Hall as [Hhd Htl]. simpl in Hhd.
  cbn [checkAll callsOf].
  destruct (checkRateLimitWith L W k t m) as [ok m1] eqn:Hstep.
  destruct (checkAll L W calls m1) as [oks m2] eqn:Hrest.
  cbn [answersFor fst].
  destruct (String.eqb_spec k ip) as [->|Hne].
  - rewrite (check_within ip t r m Hm (Hhd eq_refl)) in Hstep.
    injection Hstep as <- <-.
    set (r' := {| count := count r + 1; resetTime := resetTime r |}) in *.
    specialize (IH (<[ip := r']> m) r' (lookup_insert_eq _ _ _) Htl).
    rewrite Hrest in IH. simpl in IH. rewrite IH.
    cbn [seq map]. f_equal.
    rewrite (map_seq_shift _ 1). apply map_ext. intros a. simpl count.
    f_equal. lia.
  - assert (Hm1 : m1 !! ip = Some r).
    { replace m1 with (checkRateLimitWith L W k t m).2 by (rewrite Hstep; reflexivity).
      rewrite check_other; assumption. }
    specialize (IH m1 r Hm1 Htl). rewrite Hrest in IH. exact IH.
Qed.

(** Counts never go below zero, and an admitted call fits the limit
    with a count of at least one. *)
Lemma check_counts ip now (m : gmap string RateRecord) :
  map_Forall (fun _ r => 0 <= count r) m ->
  map_Forall (fun _ r => 0 <= count r) (checkRateLimitWith L W ip now m).2
  /\ ((checkRateLimitWith L W ip now m).1 = true -> 1 <= L).
Proof.
  intros Hinv. unfold checkRateLimitWith. cbn [fst snd].
  set (fresh := {| count := 0; resetTime := now + W |}).
  set (rec := if resetTime (default fresh (m !! ip)) <? now then fresh
              else default fresh (m !! ip)).
  assert (Hc : 0 <= count rec).
  { subst rec. destruct (_ <? now); simpl; [lia|].
    destruct (m !! ip) as [r|] eqn:Hr; simpl; [|lia].
    exact (Hinv ip r Hr). }
  split.
  - apply map_Forall_insert_2; [simpl; lia | assumption].
  - simpl. intros Hok. apply Z.leb_le in Hok. lia.
Qed.

Lemma checkAll_counts (calls : list (string * Z)) :
  forall m : gmap string RateRecord,
    map_Forall (fun _ r => 0 <= count r) m ->
    Forall (fun ok => ok = true -> 1 <= L) (checkAll L W calls m).1.
Proof.
  induction calls as [|[k t] calls IH]; intros m Hinv; [constructor|].
  cbn [checkAll].
  destruct (check_counts k t m Hinv) as [Hinv' Hok].
  destruct (checkRateLimitWith L W k t m) as [ok m1].
  specialize (IH m1 Hinv').
  destruct (checkAll L W calls m1) as [oks m2].
  constructor; assumption.
Qed.

End InMemory.

(** A call opens a window when the address has no record yet or the
    window of its record is over. *)
Lemma check_opens (L W : Z) ip now (m : gmap string ChatMem.RateRecord) :
  m !! ip = None \/ (exists r, m !! ip = Some r /\ ChatMem.resetTime r < now) ->
  ChatMem.checkRateLimitWith L W ip now m
  = (1 <=? L, <[ip := {| ChatMem.count := 1; ChatMem.resetTime := now + W |}]> m).
Proof.
  intros [Hnone | (r & Hsome & Hlate)]; [apply check_fresh; assumption|].
  unfold ChatMem.checkRateLimitWith. rewrite Hsome. simpl.
  destruct (Z.ltb_spec (ChatMem.resetTime r) now); [reflexivity | lia].
Qed.

(** C7.  For the limit [L] and the window [W], every key [ip] and every
    window of it: counted from the call that opens the window (the first
    call of the key, or its first call after the reset time of its
    record), the k-th call of [ip] within that window is admitted exactly
    when [k <= L], so the 1st to the L-th are admitted and the (L+1)-th is
    denied, whatever calls of other keys come in between and whatever the
    count of the window before was.  With [L = 0] every call is denied. *)
Theorem mem_limit_window (L W : Z) :
  (forall ip t1 (rest : list (string * Z)) (m : gmap string ChatMem.RateRecord),
     m !! ip = None \/ (exists r, m !! ip = Some r /\ ChatMem.resetTime r < t1) ->
     Forall (fun c => c.1 = ip -> c.2 <= t1 + W) rest ->
     answersFor ip ((ip, t1) :: rest) (ChatMem.checkAll L W ((ip, t1) :: rest) m).1
     = map (fun k => Z.of_nat k <=? L) (seq 1 (S (callsOf ip rest))))
  /\ (L = 0 ->
      forall calls (m : gmap string ChatMem.RateRecord),
        map_Forall (fun _ r => 0 <= ChatMem.count r) m ->
        Forall (fun ok => ok = false) (ChatMem.checkAll L W calls m).1).
Proof.
  split.
  - intros ip t1 rest m Hopens Hall.
    cbn [ChatMem.checkAll].
    rewrite (check_opens L W ip t1 m Hopens).
    set (r := {| ChatMem.count := 1; ChatMem.resetTime := t1 + W |}).
    pose proof (checkAll_within L W ip rest (<[ip := r]> m) r
                  (lookup_insert_eq _ _ _) Hall) as Hrest.
    destruct (ChatMem.checkAll L W rest (<[ip := r]> m)) as [oks m2].
    cbn [answersFor fst]. rewrite String.eqb_refl.
    simpl in Hrest. rewrite Hrest.
    cbn [seq map]. f_equal.
    rewrite (map_seq_shift _ 1). apply map_ext. intros a. f_equal. lia.
  - intros -> calls m Hinv.
    eapply Forall_impl; [apply (checkAll_counts 0 W calls m Hinv)|].
    intros [|] Hok; [specialize (Hok eq_refl); lia | reflexivity].
Qed.

(** The limiter of the handler, for an address whose last window ended
    with 250 calls: 100 calls within the new hour pass and the 101st does
    not, and the same holds of an address that is new; with a limit of 0
    nothing passes. *)
Lemma mem_limit_window_witness :
  answersFor "10.0.0.1" (("10.0.0.1", 3600001) :: repeat ("10.0.0.1", 3700000) 100)
    (ChatMem.checkAll ChatMem.RATE_LIMIT ChatMem.RATE_WINDOW
       (("10.0.0.1", 3600001) :: repeat ("10.0.0.1", 3700000) 100)
       {[ "10.0.0.1" := {| ChatMem.count := 250; ChatMem.resetTime := 3600000 |} ]}).1
  = repeat true 100 ++ [false]
  /\ answersFor "10.0.0.1" (("10.0.0.1", 0) :: repeat ("10.0.0.1", 1000) 100)
       (ChatMem.checkAll ChatMem.RATE_LIMIT ChatMem.RATE_WINDOW
          (("10.0.0.1", 0) :: repeat ("10.0.0.1", 1000) 100) ∅).1
     = repeat true 100 ++ [false]
  /\ Forall (fun ok => ok = false)
       (ChatMem.checkAll 0 ChatMem.RATE_WINDOW [("a", 0); ("b", 1); ("a", 9000000)] ∅).1.
Proof.
  split; [|split].
  - rewrite (proj1 (mem_limit_window ChatMem.RATE_LIMIT ChatMem.RATE_WINDOW)
               "10.0.0.1" 3600001 (repeat ("10.0.0.1", 3700000) 100)
               {[ "10.0.0.1" := {| ChatMem.count := 250; ChatMem.resetTime := 3600000 |} ]}).
    + vm_compute. reflexivity.
    + right. eexists. split; [reflexivity | simpl; lia].
    + apply Forall_forall. intros c Hc _.
      apply list_elem_of_In, repeat_spec in Hc. subst c. vm_compute. discriminate.
  - rewrite (proj1 (mem_limit_window ChatMem.RATE_LIMIT ChatMem.RATE_WINDOW)
               "10.0.0.1" 0 (repeat ("10.0.0.1", 1000) 100) ∅).
    + vm_compute. reflexivity.
    + left. apply lookup_empty.
    + apply Forall_forall. intros c Hc _.
      apply list_elem_of_In, repeat_spec in Hc. subst c. vm_compute. discriminate.
  - apply (proj2 (mem_limit_window 0 ChatMem.RATE_WINDOW) eq_refl).
    apply map_Forall_empty.
Defined.

(** ** The retry loop *)

Section Retry.
Import Chat.

Variable send : nat -> Settled ChatResult.
Variables (maxRetries : nat) (baseDelay : Z).

(** The loop ends: [maxRetries + 1 - retries] iterations are enough. *)
Lemma retryLoop_total fuel :
  forall retries calls slept,
    (maxRetries < retries + fuel)%nat ->
    is_Some (retryLoop send maxRetries baseDelay fuel retries calls slept).
Proof.
  induction fuel as [|fuel IH]; intros retries calls slept Hfuel; cbn [retryLoop].
  - destruct (Nat.ltb_spec maxRetries retries); [eauto | lia].
  - destruct (Nat.ltb_spec maxRetries retries); [eauto|].
    destruct (send calls) as [result|err]; [eauto|].
    destruct (statusIs err 503 && (retries <? maxRetries)%nat); [|eauto].
    apply IH. lia.
Qed.

(** While every call is answered with status 503, the loop calls
    [maxRetries + 1] times, sleeps [baseDelay * k] before the k-th retry
    and throws the last error. *)
Lemma retryLoop_exhausted last fuel :
  send maxRetries = Rejected last ->
  forall retries slept,
    (retries <= maxRetries)%nat ->
    (retries + fuel = S maxRetries)%nat ->
    (forall n, (retries <= n <= maxRetries)%nat ->
               exists e, send n = Rejected e /\ statusIs e 503 = true) ->
    retryLoop send maxRetries baseDelay fuel retries retries slept
    = Some {| loop_end := Threw last;
              loop_attempts := S maxRetries;
              loop_waits :=
                slept ++ map (fun k => baseDelay * Z.of_nat k)
                             (seq (S retries) (maxRetries - retries)) |}.
Proof.
  intros Hlast.
  induction fuel as [|fuel IH]; intros retries slept Hle Hfuel Hbusy; [lia|].
  cbn [retryLoop].
  destruct (Nat.ltb_spec maxRetries retries); [lia|].
  destruct (Hbusy retries ltac:(lia)) as (e & He & H503).
  rewrite He, H503. cbn [andb].
  destruct (Nat.ltb_spec retries maxRetries) as [Hlt|Hge].
  - rewrite IH by (try lia; intros n Hn; apply Hbusy; lia).
    replace (maxRetries - retries)%nat with (S (maxRetries - S retries)) by lia.
    cbn [seq map]. rewrite <- app_assoc. reflexivity.
  - assert (retries = maxRetries) as -> by lia.
    rewrite Hlast in He. injection He as ->.
    rewrite Nat.sub_diag. cbn [seq map]. rewrite app_nil_r. reflexivity.
Qed.

(** An error whose status is not 503 leaves the loop at once. *)
Lemma retryLoop_fatal fuel retries calls slept err :
  (retries <= maxRetries)%nat ->
  send calls = Rejected err -> statusIs err 503 = false ->
  retryLoop send maxRetries baseDelay (S fuel) retries calls slept
  = Some {| loop_end := Threw err; loop_attempts := S calls; loop_waits := slept |}.
Proof.
  intros Hle Herr Hstatus. cbn [retryLoop].
  destruct (Nat.ltb_spec maxRetries retries); [lia|].
  rewrite Herr, Hstatus. reflexivity.
Qed.

End Retry.

Lemma sendWithRetry_total send : is_Some (Chat.sendWithRetry send).
Proof. apply retryLoop_total. unfold Chat.MAX_RETRIES. lia. Qed.

(** ** The chat pipeline *)

Lemma errorResponse_classify NODE_ENV e :
  Chat.errorResponse NODE_ENV e
  = match Chat.classify e with
    | Chat.UpstreamUnavailable =>
        respond 503 [] (VObject [("error", VString Chat.overloadedMessage)])
    | Chat.UpstreamQuotaExhausted =>
        respond 503 [] (VObject [("error", VString Chat.quotaMessage)])
    | Chat.Internal =>
        respond 500 []
          (VObject [("error", VString "Failed to process chat request");
                    ("details",
                     if bool_decide (NODE_ENV = Some "development")
                     then optString (err_message e) else VUndefined)])
    end.
Proof.
  unfold Chat.errorResponse, Chat.classify.
  destruct (statusIs e 503 || messageIncludes e "overloaded"); [reflexivity|].
  destruct (messageIncludes e "quota"); reflexivity.
Qed.

(** The status test of the loop comes first in the [catch] block too: an
    error with status 503 is an overload, whatever its message says. *)
Lemma classify_503 e : statusIs e 503 = true -> Chat.classify e = Chat.UpstreamUnavailable.
Proof. intros H. unfold Chat.classify. rewrite H. reflexivity. Qed.

Lemma classify_quota e :
  Chat.classify e = Chat.UpstreamQuotaExhausted <->
  statusIs e 503 = false /\ messageIncludes e "overloaded" = false
  /\ messageIncludes e "quota" = true.
Proof.
  unfold Chat.classify.
  destruct (statusIs e 503), (messageIncludes e "overloaded"), (messageIncludes e "quota");
    simpl; split; try discriminate; try tauto; intros (? & ? & ?); discriminate.
Qed.

Lemma truthy_field_not_nullish b name : truthy (optGet b name) = true -> nullish b = false.
Proof. destruct b; simpl; try discriminate; reflexivity. Qed.

(** A request with a message and a well-formed history reaches the retry
    loop, and the handler answers from the way the loop ends. *)
Lemma answer_forwarded `{Chat.GeminiSdk} NODE_ENV iso req history chat lr :
  truthy (optGet (body req) "message") = true ->
  Chat.buildHistory (optGet (body req) "conversationHistory") = Resolved history ->
  Chat.startChat history = Resolved chat ->
  Chat.sendWithRetry (Chat.sendMessage chat (optGet (body req) "message")) = Some lr ->
  Chat.answer NODE_ENV iso req
  = Some match Chat.loop_end lr with
         | Chat.Threw e => Chat.caught NODE_ENV e (Chat.loop_attempts lr) (Chat.loop_waits lr)
         | Chat.Fell =>
             Chat.caught NODE_ENV
               (TypeError "Cannot read properties of undefined (reading 'response')")
               (Chat.loop_attempts lr) (Chat.loop_waits lr)
         | Chat.Broke result =>
             match Chat.response_text result with
             | Rejected e => Chat.caught NODE_ENV e (Chat.loop_attempts lr) (Chat.loop_waits lr)
             | Resolved text =>
                 {| outcome :=
                      respond 200 []
                        (VObject [("response", VString text); ("timestamp", VString iso)]);
                    attempts := Chat.loop_attempts lr;
                    waits := Chat.loop_waits lr |}
             end
         end.
Proof.
  intros Hmsg Hhist Hchat Hloop. unfold Chat.answer.
  rewrite (truthy_field_not_nullish _ _ Hmsg), Hmsg. cbn [negb].
  rewrite Hhist, Hchat, Hloop.
  destruct (Chat.loop_end lr) as [result| |]; try reflexivity.
  destruct (Chat.response_text result); reflexivity.
Qed.

(** C5.  When the upstream answers every call with status 503, the loop
    makes 3 calls: the first and 2 retries.  It sleeps 1000 ms before the
    first retry and 2000 ms before the second, 3000 ms in all, and after
    the third failure it throws that error instead of retrying; the
    handler turns it into its 503 answer. *)
Theorem retry_overload_exhausted (send : nat -> Settled Chat.ChatResult) e0 e1 e2 :
  send 0%nat = Rejected e0 -> statusIs e0 503 = true ->
  send 1%nat = Rejected e1 -> statusIs e1 503 = true ->
  send 2%nat = Rejected e2 -> statusIs e2 503 = true ->
  Chat.sendWithRetry send
  = Some {| Chat.loop_end := Chat.Threw e2;
            Chat.loop_attempts := S Chat.MAX_RETRIES;
            Chat.loop_waits := [1000 * 1; 1000 * 2] |}
  /\ fold_right Z.add 0 [1000 * 1; 1000 * 2] = 3000
  /\ forall NODE_ENV,
       Chat.errorResponse NODE_ENV e2
       = respond 503 [] (VObject [("error", VString Chat.overloadedMessage)]).
Proof.
  intros H0 S0 H1 S1 H2 S2. split; [|split].
  - unfold Chat.sendWithRetry.
    rewrite (retryLoop_exhausted send Chat.MAX_RETRIES 1000 e2 (S Chat.MAX_RETRIES) H2 0%nat []).
    + reflexivity.
    + unfold Chat.MAX_RETRIES. lia.
    + reflexivity.
    + unfold Chat.MAX_RETRIES. intros n Hn.
      destruct n as [|[|[|n]]]; [eauto | eauto | eauto | lia].
  - reflexivity.
  - intros NODE_ENV. rewrite errorResponse_classify, (classify_503 e2 S2). reflexivity.
Qed.

Lemma retry_overload_exhausted_witness :
  Chat.sendWithRetry (fun _ => Rejected Sample.overloaded)
  = Some {| Chat.loop_end := Chat.Threw Sample.overloaded;
            Chat.loop_attempts := 3;
            Chat.loop_waits := [1000; 2000] |}.
Proof.
  apply (retry_overload_exhausted (fun _ => Rejected Sample.overloaded)
           Sample.overloaded Sample.overloaded Sample.overloaded);
    reflexivity.
Defined.




(** ** The in-memory chat handler, end to end *)

(** C8.  A POST request that is admitted and carries a message and a
    well-formed history, against an upstream that answers the first two
    calls with status 503 and the third with a reply: the handler makes
    exactly 3 upstream calls, sleeping 1000 ms and 2000 ms in between,
    and answers 200 with the text of that reply. *)
Theorem chat_recovers_on_third_attempt `{Chat.GeminiSdk}
    NODE_ENV now iso req (requestCounts : gmap string ChatMem.RateRecord)
    history chat e0 e1 result text :
  method req = "POST" ->
  (ChatMem.checkRateLimit (clientIpOf req) now requestCounts).1 = true ->
  truthy (optGet (body req) "message") = true ->
  Chat.buildHistory (optGet (body req) "conversationHistory") = Resolved history ->
  Chat.startChat history = Resolved chat ->
  Chat.sendMessage chat (optGet (body req) "message") 0%nat = Rejected e0 ->
  statusIs e0 503 = true ->
  Chat.sendMessage chat (optGet (body req) "message") 1%nat = Rejected e1 ->
  statusIs e1 503 = true ->
  Chat.sendMessage chat (optGet (body req) "message") 2%nat = Resolved result ->
  Chat.response_text result = Resolved text ->
  ChatMem.handler NODE_ENV now iso req requestCounts
  = Some ({| outcome :=
               respond 200 []
                 (VObject [("response", VString text); ("timestamp", VString iso)]);
             attempts := 3;
             waits := [1000; 2000] |},
          (ChatMem.checkRateLimit (clientIpOf req) now requestCounts).2).
Proof.
  intros Hpost Hadmit Hmsg Hhist Hchat H0 S0 H1 S1 H2 Htext.
  unfold ChatMem.handler. rewrite Hpost. cbn [String.eqb Ascii.eqb Bool.eqb negb].
  destruct (ChatMem.checkRateLimit (clientIpOf req) now requestCounts) as [admitted m'].
  simpl in Hadmit. subst admitted. cbn [negb snd].
  rewrite (answer_forwarded NODE_ENV iso req history chat
             {| Chat.loop_end := Chat.Broke result;
                Chat.loop_attempts := 3;
                Chat.loop_waits := [1000; 2000] |} Hmsg Hhist Hchat).
  - cbn [Chat.loop_end Chat.loop_attempts Chat.loop_waits]. rewrite Htext. reflexivity.
  - unfold Chat.sendWithRetry, Chat.MAX_RETRIES. cbn [Chat.retryLoop Nat.ltb Nat.leb].
    rewrite H0, S0. cbn [andb app Nat.ltb Nat.leb].
    rewrite H1, S1. cbn [andb app Nat.ltb Nat.leb].
    rewrite H2. reflexivity.
Qed.

Lemma chat_recovers_on_third_attempt_witness :
  @ChatMem.handler
    (Sample.scriptedSdk [Rejected Sample.overloaded; Rejected Sample.overloaded;
                         Sample.reply "Moses led Israel out of Egypt."])
    None 1000 "2025-10-24T13:52:00.000Z" (Sample.ask "10.0.0.1" "Who was Moses?") ∅
  = Some ({| outcome :=
               respond 200 []
                 (VObject [("response", VString "Moses led Israel out of Egypt.");
                           ("timestamp", VString "2025-10-24T13:52:00.000Z")]);
             attempts := 3;
             waits := [1000; 2000] |},
          {[ "10.0.0.1" := {| ChatMem.count := 1; ChatMem.resetTime := 3601000 |} ]}).
Proof.
  rewrite (@chat_recovers_on_third_attempt
             (Sample.scriptedSdk [Rejected Sample.overloaded; Rejected Sample.overloaded;
                                  Sample.reply "Moses led Israel out of Egypt."])
             None 1000 "2025-10-24T13:52:00.000Z" (Sample.ask "10.0.0.1" "Who was Moses?") ∅
             [] tt Sample.overloaded Sample.overloaded
             {| Chat.response_text := Resolved "Moses led Israel out of Egypt." |}
             "Moses led Israel out of Egypt.");
    reflexivity.
Defined.

(** ** [api/chat.js]: the admission check that is not awaited *)

Section RedisChat.
Import Upstash.
Context {Store : Type} `{Limiter Store} `{Chat.GeminiSdk}.

(** Whatever its name, a field of the decision is not a member of the
    promise. *)
Lemma promise_hides_decision (p : Promise (Decision * World Store)) :
  promiseGet p "allowed" = VUndefined
  /\ promiseGet p "message" = VUndefined
  /\ promiseGet p "reason" = VUndefined.
Proof. repeat split. Qed.

(** C2.  Every POST request is answered 429 with [error] and [reason]
    undefined, whatever the limiters, the store, the request body and the
    upstream are: the handler reads [allowed] off the promise. *)
Theorem redis_chat_post_always_429 (m : ChatRedis.Limiters) NODE_ENV iso req (w : World Store) :
  method req = "POST" ->
  ChatRedis.run (ChatRedis.handler m NODE_ENV iso req w)
  = Some (noUpstream
            (respond 429 [] (VObject [("error", VUndefined); ("reason", VUndefined)]))).
Proof.
  intros Hpost. unfold ChatRedis.handler. rewrite Hpost. reflexivity.
Qed.

(** C1, amended.  The decision of the admission check never reaches the
    handler: its run is the same for any two limiter configurations and
    any two states of the store, and it makes no upstream call. *)
Theorem redis_chat_admission_ignored (m m' : ChatRedis.Limiters) NODE_ENV iso req
    (w w' : World Store) :
  ChatRedis.run (ChatRedis.handler m NODE_ENV iso req w)
  = ChatRedis.run (ChatRedis.handler m' NODE_ENV iso req w')
  /\ exists r, ChatRedis.run (ChatRedis.handler m NODE_ENV iso req w) = Some r
               /\ attempts r = 0%nat /\ waits r = [].
Proof.
  unfold ChatRedis.handler.
  destruct (String.eqb (method req) "OPTIONS"); [split; [reflexivity | eauto]|].
  destruct (negb (String.eqb (method req) "POST")); split; try reflexivity; eauto.
Qed.

End RedisChat.

Lemma redis_chat_post_always_429_witness :
  ChatRedis.run
    (@ChatRedis.handler _ Sample.counterLimit (Sample.scriptedSdk [Sample.reply "ok"])
       Sample.chatLimiters None "2025-10-24T13:52:00.000Z"
       (Sample.ask "10.0.0.1" "Who was Moses?") (Sample.start ∅))
  = Some (noUpstream
            (respond 429 [] (VObject [("error", VUndefined); ("reason", VUndefined)]))).
Proof.
  apply (@redis_chat_post_always_429 _ Sample.counterLimit (Sample.scriptedSdk [Sample.reply "ok"])).
  reflexivity.
Defined.

(** C1 as stated fails: no request whose admission check ends in a
    denial is forwarded upstream. *)
Lemma redis_chat_never_forwards :
  ~ exists (Store : Type) (L : Upstash.Limiter Store) (G : Chat.GeminiSdk)
           (m : ChatRedis.Limiters) NODE_ENV iso req (w : Upstash.World Store) r,
      Upstash.allowed (@ChatRedis.checkRateLimit _ L m (clientIpOf req) w).1 = false
      /\ ChatRedis.run (@ChatRedis.handler _ L G m NODE_ENV iso req w) = Some r
      /\ (0 < attempts r)%nat.
Proof.
  intros (Store & L & G & m & NODE_ENV & iso & req & w & r & _ & Hrun & Hcalls).
  unfold ChatRedis.handler in Hrun.
  destruct (String.eqb (method req) "OPTIONS");
    [injection Hrun as <-; simpl in Hcalls; lia|].
  destruct (negb (String.eqb (method req) "POST"));
    injection Hrun as <-; simpl in Hcalls; lia.
Qed.

(** ** The coordinators over the Upstash tiers *)

Section Coordinators.
Import Upstash.
Context {Store : Type} `{Limiter Store}.

Lemma callLimit_eq rl key (w : World Store) answer s :
  limit rl key (store w) = (answer, s) ->
  callLimit rl key w
  = (answer, {| store := s; limitCalls := limitCalls w ++ [(rl, key, answer)] |}).
Proof. intros Hl. unfold callLimit. rewrite Hl. reflexivity. Qed.

Lemma callLimit_at rl key (s0 : Store) log answer s :
  limit rl key s0 = (answer, s) ->
  callLimit rl key {| store := s0; limitCalls := log |}
  = (answer, {| store := s; limitCalls := log ++ [(rl, key, answer)] |}).
Proof. exact (callLimit_eq rl key {| store := s0; limitCalls := log |} answer s). Qed.

(** Splits every [limit] call of the goal into its answer and store. *)
Ltac run_calls :=
  repeat match goal with
         | |- context [callLimit ?rl ?key ?w] =>
             let a := fresh "a" in
             let s := fresh "s" in
             let Hl := fresh "Hl" in
             destruct (limit rl key (store w)) as [[a|?] s] eqn:Hl;
             rewrite (callLimit_eq rl key w _ _ Hl); cbn [store limitCalls fst snd];
             try destruct (success a)
         end; cbn [negb fst snd store limitCalls].

(** No call that was answered is a call that was rejected. *)
Ltac no_rejection Hlog Hin :=
  cbn [fst snd limitCalls] in Hlog;
  rewrite <- ?app_assoc in Hlog; apply app_inv_head in Hlog; subst;
  repeat (apply elem_of_cons in Hin as [Hin|Hin]; [discriminate Hin|]);
  apply elem_of_nil in Hin; contradiction.

(** C3.  Both coordinators fail open.  When a limiter or the Redis
    client is missing, the decision is [{ allowed: true }] and no call is
    made; when a call they make to any tier is rejected, the decision is
    [{ allowed: true }] as well.  The coordinators take the caller's
    address only, never the payload. *)
Theorem coordinators_fail_open :
  (forall (m : ChatRedis.Limiters) ip (w : World Store),
     ChatRedis.redis m = None \/ ChatRedis.perUserRatelimit m = None
     \/ ChatRedis.globalDailyRatelimit m = None \/ ChatRedis.globalRpmRatelimit m = None ->
     ChatRedis.checkRateLimit m ip w = (allow, w))
  /\ (forall (m : ChatRedis.Limiters) ip (w : World Store) new rl key e,
        limitCalls (ChatRedis.checkRateLimit m ip w).2 = limitCalls w ++ new ->
        (rl, key, Rejected e) ∈ new ->
        (ChatRedis.checkRateLimit m ip w).1 = allow)
  /\ (forall (m : Tts.Limiters) ip (w : World Store),
        Tts.redis m = None \/ Tts.perUserRatelimit m = None
        \/ Tts.globalRpmRatelimit m = None ->
        Tts.checkRateLimit m ip w = (allow, w))
  /\ (forall (m : Tts.Limiters) ip (w : World Store) new rl key e,
        limitCalls (Tts.checkRateLimit m ip w).2 = limitCalls w ++ new ->
        (rl, key, Rejected e) ∈ new ->
        (Tts.checkRateLimit m ip w).1 = allow).
Proof.
  repeat split.
  - intros m ip w Hmissing. unfold ChatRedis.checkRateLimit.
    destruct (ChatRedis.redis m), (ChatRedis.perUserRatelimit m),
      (ChatRedis.globalDailyRatelimit m), (ChatRedis.globalRpmRatelimit m);
      try reflexivity.
    destruct Hmissing as [?|[?|[?|?]]]; discriminate.
  - intros m ip w new rl key e. unfold ChatRedis.checkRateLimit.
    destruct (ChatRedis.redis m), (ChatRedis.perUserRatelimit m),
      (ChatRedis.globalDailyRatelimit m), (ChatRedis.globalRpmRatelimit m);
      cbn [fst snd]; try reflexivity.
    all: run_calls; intros Hlog Hin; try reflexivity.
    all: no_rejection Hlog Hin.
  - intros m ip w Hmissing. unfold Tts.checkRateLimit.
    destruct (Tts.redis m), (Tts.perUserRatelimit m), (Tts.globalRpmRatelimit m);
      try reflexivity.
    destruct Hmissing as [?|[?|?]]; discriminate.
  - intros m ip w new rl key e. unfold Tts.checkRateLimit.
    destruct (Tts.redis m), (Tts.perUserRatelimit m), (Tts.globalRpmRatelimit m);
      cbn [fst snd]; try reflexivity.
    all: run_calls; intros Hlog Hin; try reflexivity.
    all: no_rejection Hlog Hin.
Qed.

(** C4.  [api/chat.js] asks the global daily tier first, then the
    global per-minute tier, then the caller's tier, and stops at the first
    denial.  A request that the daily tier denies is reported as
    [daily_limit] with that tier's reset time, whatever the caller's tier
    would say: the only call made is the daily one, so the caller's
    counter is not touched.  When the daily tier admits and the
    per-minute tier denies, the report is [rpm_limit] after those two
    calls; when both admit, the caller's tier is the third call.  The
    speech handler has the last two tiers, in the same order. *)
Theorem tiers_in_order_short_circuit :
  (forall (m : ChatRedis.Limiters) r perUser globalDaily globalRpm ip (w : World Store) daily s1,
     ChatRedis.redis m = Some r ->
     ChatRedis.perUserRatelimit m = Some perUser ->
     ChatRedis.globalDailyRatelimit m = Some globalDaily ->
     ChatRedis.globalRpmRatelimit m = Some globalRpm ->
     limit globalDaily "global" (store w) = (Resolved daily, s1) ->
     (success daily = false ->
      ChatRedis.checkRateLimit m ip w
      = (ChatRedis.deny "daily_limit" "Daily request limit reached. Please try again tomorrow."
           (reset daily),
         {| store := s1;
            limitCalls := limitCalls w ++ [(globalDaily, "global", Resolved daily)] |}))
     /\ (success daily = true ->
         forall rpm s2,
           limit globalRpm "global" s1 = (Resolved rpm, s2) ->
           (success rpm = false ->
            ChatRedis.checkRateLimit m ip w
            = (ChatRedis.deny "rpm_limit" "Too many requests per minute. Please wait a moment."
                 (reset rpm),
               {| store := s2;
                  limitCalls := limitCalls w ++ [(globalDaily, "global", Resolved daily);
                                                 (globalRpm, "global", Resolved rpm)] |}))
           /\ (success rpm = true ->
               forall user s3,
                 limit perUser ip s2 = (user, s3) ->
                 (ChatRedis.checkRateLimit m ip w).2
                 = {| store := s3;
                      limitCalls := limitCalls w ++ [(globalDaily, "global", Resolved daily);
                                                     (globalRpm, "global", Resolved rpm);
                                                     (perUser, ip, user)] |})))
  /\ (forall (m : Tts.Limiters) r perUser globalRpm ip (w : World Store) rpm s1,
        Tts.redis m = Some r ->
        Tts.perUserRatelimit m = Some perUser ->
        Tts.globalRpmRatelimit m = Some globalRpm ->
        limit globalRpm "global" (store w) = (Resolved rpm, s1) ->
        (success rpm = false ->
         Tts.checkRateLimit m ip w
         = (Tts.deny "Too many requests. Please wait a moment.",
            {| store := s1;
               limitCalls := limitCalls w ++ [(globalRpm, "global", Resolved rpm)] |}))
        /\ (success rpm = true ->
            forall user s2,
              limit perUser ip s1 = (user, s2) ->
              (Tts.checkRateLimit m ip w).2
              = {| store := s2;
                   limitCalls := limitCalls w ++ [(globalRpm, "global", Resolved rpm);
                                                  (perUser, ip, user)] |})).
Proof.
  split.
  - intros m r perUser globalDaily globalRpm ip w daily s1 Hr Hu Hd Hm Hdaily.
    unfold ChatRedis.checkRateLimit. rewrite Hr, Hu, Hd, Hm.
    rewrite (callLimit_eq _ _ _ _ _ Hdaily).
    split; [intros ->; reflexivity|].
    intros -> rpm s2 Hrpm. cbn [negb].
    rewrite (callLimit_at globalRpm "global" _ _ _ _ Hrpm).
    rewrite <- app_assoc. cbn [app].
    split; [intros ->; reflexivity|].
    intros -> user s3 Huser. cbn [negb].
    rewrite (callLimit_at perUser ip _ _ _ _ Huser).
    rewrite <- app_assoc. cbn [app].
    destruct user as [user|e]; [destruct (success user)|]; reflexivity.
  - intros m r perUser globalRpm ip w rpm s1 Hr Hu Hm Hrpm.
    unfold Tts.checkRateLimit. rewrite Hr, Hu, Hm.
    rewrite (callLimit_eq _ _ _ _ _ Hrpm).
    split; [intros ->; reflexivity|].
    intros -> user s2 Huser. cbn [negb].
    rewrite (callLimit_at perUser ip _ _ _ _ Huser).
    rewrite <- app_assoc. cbn [app].
    destruct user as [user|e]; [destruct (success user)|]; reflexivity.
Qed.

End Coordinators.

Lemma coordinators_fail_open_witness :
  @ChatRedis.checkRateLimit _ Sample.counterLimit (ChatRedis.init None (Some "secret"))
     "10.0.0.1" (Sample.start ∅) = (Upstash.allow, Sample.start ∅)
  /\ (@ChatRedis.checkRateLimit _ Sample.outageLimit Sample.chatLimiters
        "10.0.0.1" (Sample.start ∅)).1 = Upstash.allow
  /\ @Tts.checkRateLimit _ Sample.counterLimit (Tts.init (Some "https://redis.example") None)
       "10.0.0.1" (Sample.start ∅) = (Upstash.allow, Sample.start ∅)
  /\ (@Tts.checkRateLimit _ Sample.outageLimit Sample.ttsLimiters
        "10.0.0.1" (Sample.start ∅)).1 = Upstash.allow.
Proof.
  destruct (@coordinators_fail_open _ Sample.counterLimit) as (Hchat & _ & Htts & _).
  destruct (@coordinators_fail_open _ Sample.outageLimit) as (_ & Hchat' & _ & Htts').
  split; [|split; [|split]].
  - apply Hchat. left. reflexivity.
  - eapply (Hchat' Sample.chatLimiters "10.0.0.1" (Sample.start ∅) _ _ "global"
              {| err_status := None; err_message := Some "fetch failed" |}).
    + vm_compute. reflexivity.
    + constructor.
  - apply Htts. right. left. reflexivity.
  - eapply (Htts' Sample.ttsLimiters "10.0.0.1" (Sample.start ∅) _ _ "global"
              {| err_status := None; err_message := Some "fetch failed" |}).
    + vm_compute. reflexivity.
    + constructor.
Defined.

(** The daily tier is used up and so is the caller's: the denial names
    the daily tier, and the caller's counter stays at 50. *)
Lemma tiers_in_order_short_circuit_witness :
  let counters : gmap string Z :=
    {[ "ratelimit:global:daily:global" := 900; "ratelimit:user:10.0.0.1" := 50 ]} in
  let after :=
    @ChatRedis.checkRateLimit _ Sample.counterLimit Sample.chatLimiters "10.0.0.1"
      (Sample.start counters) in
  Upstash.reason after.1 = Some "daily_limit"
  /\ Upstash.store after.2 !! "ratelimit:user:10.0.0.1" = Some 50
  /\ Upstash.store after.2 !! "ratelimit:global:daily:global" = Some 901
  /\ length (Upstash.limitCalls after.2) = 1%nat.
Proof.
  intros counters after. subst after.
  destruct (@tiers_in_order_short_circuit _ Sample.counterLimit) as [Hchat _].
  destruct (Hchat Sample.chatLimiters
              {| Upstash.url := "https://redis.example"; Upstash.token := "secret" |}
              {| Upstash.redis := {| Upstash.url := "https://redis.example"; Upstash.token := "secret" |};
                 Upstash.tokens := 50; Upstash.window := "24 h";
                 Upstash.prefix := "ratelimit:user" |}
              {| Upstash.redis := {| Upstash.url := "https://redis.example"; Upstash.token := "secret" |};
                 Upstash.tokens := 900; Upstash.window := "24 h";
                 Upstash.prefix := "ratelimit:global:daily" |}
              {| Upstash.redis := {| Upstash.url := "https://redis.example"; Upstash.token := "secret" |};
                 Upstash.tokens := 12; Upstash.window := "1 m";
                 Upstash.prefix := "ratelimit:global:rpm" |}
              "10.0.0.1" (Sample.start counters)
              {| Upstash.success := false; Upstash.reset := 86400000 |}
              (<["ratelimit:global:daily:global" := 901]> counters)
              eq_refl eq_refl eq_refl eq_refl) as [Hdenied _].
  - vm_compute. reflexivity.
  - rewrite (Hdenied eq_refl). vm_compute. repeat split.
Defined.

(** ** The speech-synthesis handler *)

Lemma string_length_ind (P : string -> Prop) :
  (forall s, (forall t, (String.length t < String.length s)%nat -> P t) -> P s) ->
  forall s, P s.
Proof.
  intros Hstep s.
  assert (Hall : forall n t, (String.length t < n)%nat -> P t).
  { induction n as [|n IH]; intros t Ht; [lia|].
    apply Hstep. intros u Hu. apply IH. lia. }
  apply (Hall (S (String.length s))). lia.
Qed.

Lemma stripWhiteSpace_shorter s r :
  stripWhiteSpace s = Some r -> (String.length r < String.length s)%nat.
Proof.
  destruct s as [|a [|b [|c r3]]]; cbn [stripWhiteSpace];
    repeat match goal with |- context [if ?t then _ else _] => destruct t end;
    intros [= <-]; simpl; lia.
Qed.

Lemma trimStart_eq s :
  trimStart s = match stripWhiteSpace s with Some r => trimStart r | None => s end.
Proof.
  destruct s as [|a r1]; [reflexivity|]. cbn [stripWhiteSpace trimStart].
  destruct (isWhiteSpace1 a); [reflexivity|].
  destruct r1 as [|b r2]; [reflexivity|].
  destruct (isWhiteSpace2 a b); [reflexivity|].
  destruct r2 as [|c r3]; [reflexivity|].
  destruct (isWhiteSpace3 a b c); reflexivity.
Qed.

Lemma allWhiteSpace_eq s :
  allWhiteSpace s
  = match s with
    | EmptyString => true
    | String _ _ =>
        match stripWhiteSpace s with Some r => allWhiteSpace r | None => false end
    end.
Proof.
  destruct s as [|a r1]; [reflexivity|]. cbn [stripWhiteSpace allWhiteSpace].
  destruct (isWhiteSpace1 a); [reflexivity|].
  destruct r1 as [|b r2]; [reflexivity|].
  destruct (isWhiteSpace2 a b); [reflexivity|].
  destruct r2 as [|c r3]; [reflexivity|].
  destruct (isWhiteSpace3 a b c); reflexivity.
Qed.

Lemma trimStart_blank s : allWhiteSpace s = true -> trimStart s = "".
Proof.
  induction s as [s IH] using string_length_ind. intros Hs.
  rewrite allWhiteSpace_eq in Hs. rewrite trimStart_eq.
  destruct s as [|a r]; [reflexivity|].
  destruct (stripWhiteSpace (String a r)) as [t|] eqn:Hstrip; [|discriminate].
  apply IH; [apply stripWhiteSpace_shorter; assumption | assumption].
Qed.

(** Trimming the start takes white space away only. *)
Lemma allWhiteSpace_trimStart s : allWhiteSpace (trimStart s) = allWhiteSpace s.
Proof.
  induction s as [s IH] using string_length_ind.
  rewrite trimStart_eq, (allWhiteSpace_eq s).
  destruct (stripWhiteSpace s) as [t|] eqn:Hstrip.
  - rewrite (IH t (stripWhiteSpace_shorter s t Hstrip)).
    destruct s; [discriminate | reflexivity].
  - rewrite (allWhiteSpace_eq s), Hstrip. reflexivity.
Qed.

Lemma trimEnd_blank s : trimEnd s = "" <-> allWhiteSpace s = true.
Proof.
  destruct s as [|c r]; [split; reflexivity|].
  cbn [trimEnd]. destruct (allWhiteSpace (String c r)); split; congruence.
Qed.

(** [text.trim().length === 0] holds of the strings of white space. *)
Lemma trim_length_blank s : (String.length (trim s) =? 0)%nat = allWhiteSpace s.
Proof.
  unfold trim. destruct (allWhiteSpace s) eqn:Hs.
  - rewrite (trimStart_blank s Hs). reflexivity.
  - rewrite <- allWhiteSpace_trimStart in Hs.
    destruct (trimEnd (trimStart s)) eqn:Hend; [|reflexivity].
    apply trimEnd_blank in Hend. congruence.
Qed.

(** The test of the handler is the condition in words. *)
Lemma invalidText_blankText text : Tts.invalidText text = Tts.blankText text.
Proof.
  destruct text as [| |b|q|s|l|f|]; try reflexivity.
  - unfold Tts.invalidText. simpl. rewrite orb_true_r. reflexivity.
  - unfold Tts.invalidText. simpl. rewrite orb_true_r. reflexivity.
  - unfold Tts.invalidText, Tts.blankText. cbn [truthy isString negb orb].
    rewrite trim_length_blank, orb_false_r.
    destruct s; reflexivity.
Qed.

Section Speech.
Import Upstash.
Context {Store : Type} `{Limiter Store} `{Tts.Fetch}.

Lemma synthesize_once key s :
  attempts (Tts.synthesize key s) = 1%nat /\ waits (Tts.synthesize key s) = [].
Proof.
  unfold Tts.synthesize.
  destruct (Tts.fetch _ _) as [g|e]; [|split; reflexivity].
  destruct (Tts.ok g); cbn [negb].
  - destruct (Tts.fetch_json g) as [data|e]; [|split; reflexivity].
    destruct (negb _); split; reflexivity.
  - destruct (Tts.fetch_text g); split; reflexivity.
Qed.

(** An admitted POST request with a text that is not blank goes to
    [fetch]. *)
Lemma handler_synthesizes (m : Tts.Limiters) key req (w : World Store) s :
  method req = "POST" ->
  allowed (Tts.checkRateLimit m (clientIpOf req) w).1 = true ->
  optGet (body req) "text" = VString s ->
  Tts.invalidText (VString s) = false ->
  Tts.handler m key req w
  = (Tts.synthesize key s, (Tts.checkRateLimit m (clientIpOf req) w).2).
Proof.
  intros Hpost Hallowed Htext Hvalid. unfold Tts.handler, await. rewrite Hpost.
  cbn [String.eqb Ascii.eqb Bool.eqb negb eventual].
  destruct (Tts.checkRateLimit m (clientIpOf req) w) as [d w'].
  cbn [fst snd] in *. rewrite Hallowed. cbn [negb].
  assert (Hbody : nullish (body req) = false).
  { destruct (body req); try reflexivity; discriminate. }
  rewrite Hbody, Htext, Hvalid. reflexivity.
Qed.

(** C9.  The speech handler never retries and never sleeps: no request
    causes more than one upstream call.  An admitted POST request with a
    valid text causes exactly one; the answer is 502 when the upstream
    status is not ok (503 included) or the reply holds no audio data, and
    500 when [fetch] or the reading of the reply throws. *)
Theorem speech_never_retries (m : Tts.Limiters) key req (w : World Store) :
  (attempts (Tts.handler m key req w).1 <= 1)%nat
  /\ waits (Tts.handler m key req w).1 = []
  /\ (method req = "POST" ->
      allowed (Tts.checkRateLimit m (clientIpOf req) w).1 = true ->
      forall s,
        optGet (body req) "text" = VString s ->
        Tts.invalidText (VString s) = false ->
        let r := (Tts.handler m key req w).1 in
        let internal :=
          respond 500 Tts.corsHeaders (VObject [("error", VString "Failed to synthesize speech")]) in
        attempts r = 1%nat
        /\ (forall e, Tts.fetch (Tts.endpoint key) (Tts.payload s) = Rejected e ->
                      outcome r = internal)
        /\ (forall g,
              Tts.fetch (Tts.endpoint key) (Tts.payload s) = Resolved g ->
              (Tts.ok g = false ->
               (forall errBody, Tts.fetch_text g = Resolved errBody ->
                  outcome r
                  = respond 502 Tts.corsHeaders
                      (VObject [("error",
                                 VString ("Gemini TTS error: " +:+ pretty (Tts.fetch_status g)))]))
               /\ (forall e, Tts.fetch_text g = Rejected e -> outcome r = internal))
              /\ (Tts.ok g = true ->
                  (forall data,
                     Tts.fetch_json g = Resolved data ->
                     truthy (optGet (optGet (Tts.firstPart data) "inlineData") "data") = false ->
                     outcome r
                     = respond 502 Tts.corsHeaders
                         (VObject [("error", VString "No audio data returned from Gemini TTS")]))
                  /\ (forall e, Tts.fetch_json g = Rejected e -> outcome r = internal)))).
Proof.
  split; [|split].
  - unfold Tts.handler, await.
    destruct (String.eqb (method req) "OPTIONS"); [simpl; lia|].
    destruct (negb (String.eqb (method req) "POST")); [simpl; lia|].
    cbn [eventual].
    destruct (Tts.checkRateLimit m (clientIpOf req) w) as [d w'].
    destruct (negb (allowed d)); [simpl; lia|].
    destruct (nullish (body req)); [simpl; lia|].
    destruct (Tts.invalidText _); [simpl; lia|].
    destruct (optGet (body req) "text"); try (simpl; lia).
    cbn [fst]. rewrite (proj1 (synthesize_once key s)). lia.
  - unfold Tts.handler, await.
    destruct (String.eqb (method req) "OPTIONS"); [reflexivity|].
    destruct (negb (String.eqb (method req) "POST")); [reflexivity|].
    cbn [eventual].
    destruct (Tts.checkRateLimit m (clientIpOf req) w) as [d w'].
    destruct (negb (allowed d)); [reflexivity|].
    destruct (nullish (body req)); [reflexivity|].
    destruct (Tts.invalidText _); [reflexivity|].
    destruct (optGet (body req) "text"); try reflexivity.
    cbn [fst]. apply synthesize_once.
  - intros Hpost Hallowed s Htext Hvalid r internal. subst r internal.
    rewrite (handler_synthesizes m key req w s Hpost Hallowed Htext Hvalid). cbn [fst].
    split; [apply synthesize_once|]. unfold Tts.synthesize.
    split.
    + intros e ->. reflexivity.
    + intros g ->. split.
      * intros ->. cbn [negb]. split; [intros errBody ->|intros e ->]; reflexivity.
      * intros ->. cbn [negb]. split; [intros data -> ->|intros e ->]; reflexivity.
Qed.

(** X24.  A POST request with a body that has no [text], a [text] that
    is not a string, or a [text] of white space only, makes no upstream
    call.
    The handler has run the admission check before it looks at the text:
    the store and the log of [limit] calls are those the check leaves
    behind, with the call to the per-minute tier made whenever the
    limiters are configured.  The answer is 400 when the check admits the
    request, and the check's own 429 otherwise. *)
Theorem speech_rejects_blank_text_after_admission (m : Tts.Limiters) key req (w : World Store) :
  method req = "POST" ->
  nullish (body req) = false ->
  Tts.blankText (optGet (body req) "text") = true ->
  let r := Tts.handler m key req w in
  let check := Tts.checkRateLimit m (clientIpOf req) w in
  attempts r.1 = 0%nat
  /\ r.2 = check.2
  /\ (allowed check.1 = true ->
      outcome r.1 = respond 400 Tts.corsHeaders (VObject [("error", VString "text is required")]))
  /\ (allowed check.1 = false ->
      outcome r.1
      = respond 429 Tts.corsHeaders (VObject [("error", optString (message check.1))]))
  /\ (forall redis perUser globalRpm,
        Tts.redis m = Some redis -> Tts.perUserRatelimit m = Some perUser ->
        Tts.globalRpmRatelimit m = Some globalRpm ->
        exists answer later,
          limitCalls r.2 = limitCalls w ++ (globalRpm, "global", answer) :: later).
Proof.
  intros Hpost Hbody Hblank r check. subst r check.
  rewrite <- invalidText_blankText in Hblank.
  unfold Tts.handler, await. rewrite Hpost.
  cbn [String.eqb Ascii.eqb Bool.eqb negb eventual].
  assert (Hlog : forall redis perUser globalRpm,
             Tts.redis m = Some redis -> Tts.perUserRatelimit m = Some perUser ->
             Tts.globalRpmRatelimit m = Some globalRpm ->
             exists answer later,
               limitCalls (Tts.checkRateLimit m (clientIpOf req) w).2
               = limitCalls w ++ (globalRpm, "global", answer) :: later).
  { intros redis perUser globalRpm Hr Hu Hg. unfold Tts.checkRateLimit.
    rewrite Hr, Hu, Hg.
    destruct (limit globalRpm "global" (store w)) as [[rpm|e] s1] eqn:Hrpm;
      rewrite (callLimit_eq _ _ _ _ _ Hrpm); [|cbn [snd limitCalls]; eauto].
    destruct (success rpm); cbn [negb]; [|cbn [snd limitCalls]; eauto].
    destruct (limit perUser (clientIpOf req) s1) as [user s2] eqn:Huser.
    rewrite (callLimit_at _ _ _ _ _ _ Huser).
    exists (Resolved rpm), [(perUser, clientIpOf req, user)].
    destruct user as [user|e]; [destruct (success user)|];
      cbn [negb snd limitCalls]; rewrite <- app_assoc; reflexivity. }
  destruct (Tts.checkRateLimit m (clientIpOf req) w) as [d w'].
  cbn [fst snd] in *.
  destruct (allowed d); cbn [negb].
  - rewrite Hbody, Hblank. cbn [fst snd Tts.sent attempts outcome].
    repeat split; [discriminate | exact Hlog].
  - cbn [fst snd Tts.sent attempts outcome].
    repeat split; [discriminate | exact Hlog].
Qed.

End Speech.

(** The upstream answers 503: one call, no sleep, 502. *)
Lemma speech_never_retries_witness :
  let busy : Tts.Fetch :=
    Sample.fixedFetch
      (Resolved {| Tts.ok := false; Tts.fetch_status := 503;
                   Tts.fetch_text := Resolved "The model is overloaded.";
                   Tts.fetch_json := Rejected (TypeError "Unexpected token") |}) in
  let r :=
    (@Tts.handler _ Sample.counterLimit busy Sample.ttsLimiters (Some "key")
       (Sample.speak "10.0.0.1" "In the beginning") (Sample.start ∅)).1 in
  attempts r = 1%nat /\ waits r = []
  /\ outcome r
     = respond 502 Tts.corsHeaders (VObject [("error", VString "Gemini TTS error: 503")]).
Proof.
  intros busy r. subst r.
  destruct (@speech_never_retries _ Sample.counterLimit busy Sample.ttsLimiters (Some "key")
              (Sample.speak "10.0.0.1" "In the beginning") (Sample.start ∅))
    as (_ & Hwaits & Hforward).
  destruct (Hforward eq_refl eq_refl "In the beginning" eq_refl eq_refl)
    as (Hcalls & _ & Hsettled).
  destruct (Hsettled _ eq_refl) as [Hnotok _].
  destruct (Hnotok eq_refl) as [Hread _].
  split; [exact Hcalls | split; [exact Hwaits|]].
  rewrite (Hread _ eq_refl). vm_compute. reflexivity.
Defined.

(** C10.  The code at the failing input, a POST request that has no
    body: its text is missing, and the handler does not answer 400.  The
    destructuring of [req.body], which stands before the [try] block,
    throws; the exception leaves the handler after the admission check
    has charged both tiers. *)
Theorem speech_no_body_is_not_answered_400 :
  let req :=
    {| method := "POST"; headers := {[ "x-forwarded-for" := "10.0.0.1" ]};
       socket := {| remoteAddress := None |}; body := VUndefined |} in
  let r :=
    @Tts.handler _ Sample.counterLimit (Sample.fixedFetch (Rejected Sample.overloaded))
      Sample.ttsLimiters (Some "key") req (Sample.start ∅) in
  Tts.blankText (optGet (body req) "text") = true
  /\ outcome r.1
     = Unhandled
         (TypeError "Cannot destructure property 'text' of 'req.body' as it is undefined.")
  /\ statusOf (outcome r.1) <> Some 400
  /\ attempts r.1 = 0%nat
  /\ Upstash.store r.2 !! "ratelimit:tts:global:rpm:global" = Some 1
  /\ Upstash.store r.2 !! "ratelimit:tts:user:10.0.0.1" = Some 1.
Proof.
  vm_compute. repeat split. discriminate.
Qed.

(** A text of blanks, among them U+3000 and U+00A0: 400 and no upstream
    call, after both tiers were charged. *)
Lemma speech_rejects_blank_text_after_admission_witness :
  let r :=
    @Tts.handler _ Sample.counterLimit (Sample.fixedFetch (Rejected Sample.overloaded))
      Sample.ttsLimiters (Some "key") (Sample.speak "10.0.0.1" Sample.blanks)
      (Sample.start ∅) in
  attempts r.1 = 0%nat
  /\ outcome r.1 = respond 400 Tts.corsHeaders (VObject [("error", VString "text is required")])
  /\ Upstash.store r.2 !! "ratelimit:tts:global:rpm:global" = Some 1
  /\ Upstash.store r.2 !! "ratelimit:tts:user:10.0.0.1" = Some 1.
Proof.
  intros r. subst r.
  destruct (@speech_rejects_blank_text_after_admission _ Sample.counterLimit
              (Sample.fixedFetch (Rejected Sample.overloaded))
              Sample.ttsLimiters (Some "key") (Sample.speak "10.0.0.1" Sample.blanks)
              (Sample.start ∅) eq_refl eq_refl eq_refl)
    as (Hcalls & Hworld & Hbad & _ & _).
  split; [exact Hcalls | split; [exact (Hbad eq_refl)|]].
  rewrite Hworld. vm_compute. split; reflexivity.
Defined.

(** ** Worked examples *)

Example trim_example : trim "  In the beginning  " = "In the beginning".
Proof. reflexivity. Qed.

Example includes_example :
  includes "[429 Too Many Requests] You exceeded your current quota" "quota" = true
  /\ includes "The model is overloaded." "quota" = false.
Proof. split; reflexivity. Qed.

(** The status decides first: a 503 whose message mentions the quota is
    an overload, and the loop retries it. *)
Example overload_takes_precedence :
  let e := {| err_status := Some 503; err_message := Some "quota exceeded" |} in
  Chat.classify e = Chat.UpstreamUnavailable
  /\ Chat.sendWithRetry (fun _ => Rejected e)
     = Some {| Chat.loop_end := Chat.Threw e; Chat.loop_attempts := 3;
               Chat.loop_waits := [1000; 2000] |}.
Proof. split; reflexivity. Qed.

(** The in-memory handler turns the 101st request of an address within
    the hour away without an upstream call. *)
Example mem_handler_rate_limited :
  @ChatMem.handler (Sample.scriptedSdk [Sample.reply "ok"]) None 5000 "2025-10-24T13:52:00.000Z"
    (Sample.ask "10.0.0.1" "Who was Moses?")
    {[ "10.0.0.1" := {| ChatMem.count := 100; ChatMem.resetTime := 3600000 |} ]}
  = Some (noUpstream
            (respond 429 [] (VObject [("error", VString "Rate limit exceeded. Please try again later.")])),
          {[ "10.0.0.1" := {| ChatMem.count := 101; ChatMem.resetTime := 3600000 |} ]}).
Proof. reflexivity. Qed.

(** The speech handler with audio in the reply. *)
Example speech_ok :
  let audio :=
    VObject [("candidates",
              VArray [VObject [("content",
                                VObject [("parts",
                                          VArray [VObject [("inlineData",
                                                            VObject [("data", VString "UklGRg==");
                                                                     ("mimeType", VString "audio/pcm;rate=24000")])]])])]])] in
  let up : Tts.Fetch :=
    Sample.fixedFetch
      (Resolved {| Tts.ok := true; Tts.fetch_status := 200;
                   Tts.fetch_text := Resolved ""; Tts.fetch_json := Resolved audio |}) in
  (@Tts.handler _ Sample.counterLimit up Sample.ttsLimiters (Some "key")
     (Sample.speak "10.0.0.1" " In the beginning ") (Sample.start ∅)).1
  = {| outcome :=
         respond 200 Tts.corsHeaders
           (VObject [("audioData", VString "UklGRg==");
                     ("mimeType", VString "audio/pcm;rate=24000")]);
       attempts := 1; waits := [] |}.
Proof. reflexivity. Qed.

(** The Redis chat handler answers 429 although the store is empty and
    the check it started will admit the request. *)
Example redis_chat_denies_first_request :
  let inv :=
    @ChatRedis.handler _ Sample.counterLimit (Sample.scriptedSdk [Sample.reply "ok"])
      Sample.chatLimiters None "2025-10-24T13:52:00.000Z"
      (Sample.ask "10.0.0.1" "Who was Moses?") (Sample.start ∅) in
  (Upstash.allowed <$> (fst <$> (eventual <$> ChatRedis.admission inv))) = Some true
  /\ (status <$> (match ChatRedis.run inv with
                  | Some {| outcome := Responded r |} => Some r
                  | _ => None
                  end)) = Some 429.
Proof. split; reflexivity. Qed.

(** * Further properties of the handlers *)

(** ** The in-memory limiter *)

(** X1.  The window of an address ends strictly after its reset time: a
    call at the reset time itself still counts in the running window, a
    call after it opens a new window with a count of one. *)
Theorem mem_window_boundary (L W : Z) ip now r (m : gmap string ChatMem.RateRecord) :
  m !! ip = Some r ->
  (now = ChatMem.resetTime r ->
   ChatMem.checkRateLimitWith L W ip now m
   = (ChatMem.count r + 1 <=? L,
      <[ip := {| ChatMem.count := ChatMem.count r + 1;
                 ChatMem.resetTime := ChatMem.resetTime r |}]> m))
  /\ (ChatMem.resetTime r < now ->
      ChatMem.checkRateLimitWith L W ip now m
      = (1 <=? L, <[ip := {| ChatMem.count := 1; ChatMem.resetTime := now + W |}]> m)).
Proof.
  intros Hm. split.
  - intros ->. apply check_within; [assumption | lia].
  - intros Hlate. unfold ChatMem.checkRateLimitWith. rewrite Hm. simpl.
    destruct (Z.ltb_spec (ChatMem.resetTime r) now); [reflexivity | lia].
Qed.

Lemma mem_window_boundary_witness :
  let m : gmap string ChatMem.RateRecord :=
    {[ "10.0.0.1" := {| ChatMem.count := 100; ChatMem.resetTime := 3600000 |} ]} in
  (ChatMem.checkRateLimit "10.0.0.1" 3600000 m).1 = false
  /\ (ChatMem.checkRateLimit "10.0.0.1" 3600001 m).1 = true.
Proof.
  intros m.
  destruct (mem_window_boundary ChatMem.RATE_LIMIT ChatMem.RATE_WINDOW "10.0.0.1" 3600000
              {| ChatMem.count := 100; ChatMem.resetTime := 3600000 |} m eq_refl) as [Hat _].
  destruct (mem_window_boundary ChatMem.RATE_LIMIT ChatMem.RATE_WINDOW "10.0.0.1" 3600001
              {| ChatMem.count := 100; ChatMem.resetTime := 3600000 |} m eq_refl) as [_ Hafter].
  unfold ChatMem.checkRateLimit.
  rewrite (Hat eq_refl), (Hafter ltac:(simpl; lia)). split; reflexivity.
Defined.

Lemma check_same_record (L W : Z) ip now (m m' : gmap string ChatMem.RateRecord) :
  m !! ip = m' !! ip ->
  (ChatMem.checkRateLimitWith L W ip now m).1 = (ChatMem.checkRateLimitWith L W ip now m').1
  /\ (ChatMem.checkRateLimitWith L W ip now m).2 !! ip
     = (ChatMem.checkRateLimitWith L W ip now m').2 !! ip.
Proof.
  intros Heq. unfold ChatMem.checkRateLimitWith. cbn [fst snd].
  rewrite !lookup_insert_eq, Heq. split; reflexivity.
Qed.

Lemma checkAll_own_calls (L W : Z) ip (calls : list (string * Z)) :
  forall m m' : gmap string ChatMem.RateRecord,
    m !! ip = m' !! ip ->
    answersFor ip calls (ChatMem.checkAll L W calls m).1
    = (ChatMem.checkAll L W (callsFor ip calls) m').1.
Proof.
  induction calls as [|[k t] calls IH]; intros m m' Heq; [reflexivity|].
  cbn [ChatMem.checkAll callsFor List.filter fst].
  destruct (ChatMem.checkRateLimitWith L W k t m) as [ok m1] eqn:Hstep.
  destruct (ChatMem.checkAll L W calls m1) as [oks m2] eqn:Hrest.
  cbn [answersFor fst].
  destruct (String.eqb_spec k ip) as [->|Hne].
  - cbn [ChatMem.checkAll].
    destruct (check_same_record L W ip t m m' Heq) as [Hans Hrec].
    rewrite Hstep in Hans, Hrec. cbn [fst snd] in Hans, Hrec.
    destruct (ChatMem.checkRateLimitWith L W ip t m') as [ok' m1'].
    cbn [fst snd] in Hans, Hrec. subst ok'.
    specialize (IH m1 m1' Hrec). rewrite Hrest in IH. cbn [fst] in IH.
    fold (callsFor ip calls).
    destruct (ChatMem.checkAll L W (callsFor ip calls) m1') as [oks' m2'].
    cbn [fst] in *. rewrite IH. reflexivity.
  - assert (Hm1 : m1 !! ip = m' !! ip).
    { rewrite <- Heq.
      replace m1 with (ChatMem.checkRateLimitWith L W k t m).2 by (rewrite Hstep; reflexivity).
      apply check_other. assumption. }
    specialize (IH m1 m' Hm1). rewrite Hrest in IH. exact IH.
Qed.

(** X2.  Addresses do not interfere: in any sequence of calls, the
    answers given to one address are those it would get if the calls of
    all other addresses were left out. *)
Theorem mem_addresses_independent (L W : Z) ip (calls : list (string * Z))
    (m : gmap string ChatMem.RateRecord) :
  answersFor ip calls (ChatMem.checkAll L W calls m).1
  = (ChatMem.checkAll L W (callsFor ip calls) m).1.
Proof. apply checkAll_own_calls. reflexivity. Qed.

(** ** The in-memory chat handler *)

Section MemHandler.
Context `{Chat.GeminiSdk}.

(** X3.  A POST request of an address that has used up its 100 requests
    in the running window is answered 429 without an upstream call,
    whatever its body; the request is counted all the same. *)
Theorem mem_handler_over_limit NODE_ENV now iso req r
    (requestCounts : gmap string ChatMem.RateRecord) :
  method req = "POST" ->
  requestCounts !! clientIpOf req = Some r ->
  now <= ChatMem.resetTime r ->
  ChatMem.RATE_LIMIT <= ChatMem.count r ->
  ChatMem.handler NODE_ENV now iso req requestCounts
  = Some (noUpstream
            (respond 429 [] (VObject [("error", VString "Rate limit exceeded. Please try again later.")])),
          <[clientIpOf req := {| ChatMem.count := ChatMem.count r + 1;
                                 ChatMem.resetTime := ChatMem.resetTime r |}]> requestCounts).
Proof.
  intros Hpost Hrec Hnow Hfull. unfold ChatMem.handler. rewrite Hpost.
  cbn [String.eqb Ascii.eqb Bool.eqb negb].
  unfold ChatMem.checkRateLimit. rewrite (check_within _ _ _ _ r _ Hrec Hnow).
  destruct (Z.leb_spec (ChatMem.count r + 1) ChatMem.RATE_LIMIT); [lia | reflexivity].
Qed.

(** X4.  An admitted POST request whose body has no message (or a falsy
    one) is answered 400 without an upstream call; the limiter has
    counted it before the body was looked at. *)
Theorem mem_handler_message_required NODE_ENV now iso req
    (requestCounts : gmap string ChatMem.RateRecord) :
  method req = "POST" ->
  (ChatMem.checkRateLimit (clientIpOf req) now requestCounts).1 = true ->
  nullish (body req) = false ->
  truthy (optGet (body req) "message") = false ->
  ChatMem.handler NODE_ENV now iso req requestCounts
  = Some (noUpstream (respond 400 [] (VObject [("error", VString "Message is required")])),
          (ChatMem.checkRateLimit (clientIpOf req) now requestCounts).2)
  /\ ((ChatMem.checkRateLimit (clientIpOf req) now requestCounts).2 !! clientIpOf req
      <> requestCounts !! clientIpOf req).
Proof.
  intros Hpost Hadmit Hbody Hmsg. split.
  - unfold ChatMem.handler. rewrite Hpost. cbn [String.eqb Ascii.eqb Bool.eqb negb].
    destruct (ChatMem.checkRateLimit (clientIpOf req) now requestCounts) as [ok m'].
    cbn [fst snd] in *. subst ok. cbn [negb].
    unfold Chat.answer. rewrite Hbody, Hmsg. reflexivity.
  - unfold ChatMem.checkRateLimit, ChatMem.checkRateLimitWith. cbn [snd].
    rewrite lookup_insert_eq.
    destruct (requestCounts !! clientIpOf req) as [r|]; [|discriminate].
    simpl. destruct (Z.ltb_spec (ChatMem.resetTime r) now) as [Hlate|Hin].
    + intros Heq. injection Heq as Heq. rewrite <- Heq in Hlate. simpl in Hlate.
      unfold ChatMem.RATE_WINDOW in Hlate. lia.
    + intros Heq. injection Heq as Heq.
      apply (f_equal ChatMem.count) in Heq. simpl in Heq. lia.
Qed.

End MemHandler.

Lemma mem_handler_over_limit_witness :
  @ChatMem.handler (Sample.scriptedSdk [Sample.reply "ok"]) None 5000 "2025-10-24T13:52:00.000Z"
    (Sample.ask "10.0.0.1" "Who was Moses?")
    {[ "10.0.0.1" := {| ChatMem.count := 250; ChatMem.resetTime := 3600000 |} ]}
  = Some (noUpstream
            (respond 429 [] (VObject [("error", VString "Rate limit exceeded. Please try again later.")])),
          {[ "10.0.0.1" := {| ChatMem.count := 251; ChatMem.resetTime := 3600000 |} ]}).
Proof.
  rewrite (@mem_handler_over_limit (Sample.scriptedSdk [Sample.reply "ok"]) None 5000
             "2025-10-24T13:52:00.000Z" (Sample.ask "10.0.0.1" "Who was Moses?")
             {| ChatMem.count := 250; ChatMem.resetTime := 3600000 |});
    try reflexivity; vm_compute; discriminate.
Defined.

Lemma mem_handler_message_required_witness :
  @ChatMem.handler (Sample.scriptedSdk [Sample.reply "ok"]) None 5000 "2025-10-24T13:52:00.000Z"
    (Sample.post "10.0.0.1" (VObject [("message", VString "")])) ∅
  = Some (noUpstream (respond 400 [] (VObject [("error", VString "Message is required")])),
          {[ "10.0.0.1" := {| ChatMem.count := 1; ChatMem.resetTime := 3605000 |} ]}).
Proof.
  destruct (@mem_handler_message_required (Sample.scriptedSdk [Sample.reply "ok"]) None 5000
              "2025-10-24T13:52:00.000Z"
              (Sample.post "10.0.0.1" (VObject [("message", VString "")])) ∅)
    as [Hrun _]; [reflexivity | vm_compute; reflexivity | reflexivity | reflexivity |].
  rewrite Hrun. reflexivity.
Defined.

(** ** The retry loop, for any upstream *)

Section RetryShape.
Import Chat.

Variable send : nat -> Settled ChatResult.
Variables (maxRetries : nat) (baseDelay : Z).

Lemma retryLoop_shape fuel :
  forall retries slept lr,
    (retries <= maxRetries)%nat ->
    retryLoop send maxRetries baseDelay fuel retries retries slept = Some lr ->
    exists k,
      (retries + k <= maxRetries)%nat
      /\ loop_attempts lr = S (retries + k)
      /\ loop_waits lr
         = slept ++ map (fun j => baseDelay * Z.of_nat j) (seq (S retries) k)
      /\ loop_end lr <> Fell.
Proof.
  induction fuel as [|fuel IH]; intros retries slept lr Hle; cbn [retryLoop];
    destruct (Nat.ltb_spec maxRetries retries); try lia; [discriminate|].
  destruct (send retries) as [result|err].
  - intros [= <-]. exists 0%nat. cbn. rewrite app_nil_r, Nat.add_0_r.
    repeat split; [lia | discriminate].
  - destruct (statusIs err 503); cbn [andb];
      [destruct (Nat.ltb_spec retries maxRetries)|].
    + intros Hrun.
      assert (Hle' : (S retries <= maxRetries)%nat) by lia.
      destruct (IH _ _ _ Hle' Hrun) as (k & Hk & Ha & Hw & He).
      exists (S k). rewrite Ha, Hw. cbn [seq map]. rewrite <- app_assoc.
      repeat split; [lia | f_equal; lia | assumption].
    + intros [= <-]. exists 0%nat. cbn. rewrite app_nil_r, Nat.add_0_r.
      repeat split; [lia | discriminate].
    + intros [= <-]. exists 0%nat. cbn. rewrite app_nil_r, Nat.add_0_r.
      repeat split; [lia | discriminate].
Qed.

(** While the calls are answered with status 503 the loop goes on
    retrying, as long as it has retries and fuel left. *)
Lemma retryLoop_skips k :
  forall fuel retries slept,
    (retries + k <= maxRetries)%nat ->
    (forall n, (retries <= n < retries + k)%nat ->
               exists e, send n = Rejected e /\ statusIs e 503 = true) ->
    retryLoop send maxRetries baseDelay (k + fuel) retries retries slept
    = retryLoop send maxRetries baseDelay fuel (retries + k) (retries + k)
        (slept ++ map (fun j => baseDelay * Z.of_nat j) (seq (S retries) k)).
Proof.
  induction k as [|k IH]; intros fuel retries slept Hle Hbusy.
  - cbn. rewrite app_nil_r, Nat.add_0_r. reflexivity.
  - cbn [Nat.add retryLoop].
    destruct (Nat.ltb_spec maxRetries retries); [lia|].
    destruct (Hbusy retries ltac:(lia)) as (e & -> & ->). cbn [andb].
    destruct (Nat.ltb_spec retries maxRetries); [|lia].
    rewrite IH by (try lia; intros n Hn; apply Hbusy; lia).
    cbn [seq map]. rewrite <- app_assoc.
    replace (S retries + k)%nat with (retries + S k)%nat by lia. reflexivity.
Qed.

End RetryShape.

(** X5.  Whatever the upstream answers, the retry loop ends after at
    most 3 calls, has slept 1000 ms before the first retry and 2000 ms
    before the second and nothing else, and is left by [break] or
    [throw], never through its [while] condition. *)
Theorem retry_loop_bounded (send : nat -> Settled Chat.ChatResult) :
  exists lr k,
    Chat.sendWithRetry send = Some lr
    /\ (k <= Chat.MAX_RETRIES)%nat
    /\ Chat.loop_attempts lr = S k
    /\ Chat.loop_waits lr = map (fun j => 1000 * Z.of_nat j) (seq 1 k)
    /\ Chat.loop_end lr <> Chat.Fell.
Proof.
  destruct (sendWithRetry_total send) as [lr Hlr].
  destruct (retryLoop_shape send Chat.MAX_RETRIES 1000 _ 0%nat [] lr ltac:(lia) Hlr)
    as (k & Hk & Ha & Hw & He).
  exists lr, k. repeat split; try assumption.
Qed.

(** X6.  The first call that is not answered with status 503 decides:
    after [k <= 2] such answers, a reply to the next call ends the loop
    with that reply, and an error with another status is thrown at once;
    either way [k + 1] calls were made and the loop slept [1000 * j]
    before the j-th retry. *)
Theorem retry_first_other_answer_decides (send : nat -> Settled Chat.ChatResult) k :
  (k <= Chat.MAX_RETRIES)%nat ->
  (forall n, (n < k)%nat -> exists e, send n = Rejected e /\ statusIs e 503 = true) ->
  (forall result,
     send k = Resolved result ->
     Chat.sendWithRetry send
     = Some {| Chat.loop_end := Chat.Broke result;
               Chat.loop_attempts := S k;
               Chat.loop_waits := map (fun j => 1000 * Z.of_nat j) (seq 1 k) |})
  /\ (forall e,
        send k = Rejected e -> statusIs e 503 = false ->
        Chat.sendWithRetry send
        = Some {| Chat.loop_end := Chat.Threw e;
                  Chat.loop_attempts := S k;
                  Chat.loop_waits := map (fun j => 1000 * Z.of_nat j) (seq 1 k) |}).
Proof.
  intros Hk Hbusy.
  assert (Hskip :
            Chat.sendWithRetry send
            = Chat.retryLoop send Chat.MAX_RETRIES 1000 (S (Chat.MAX_RETRIES - k)) k k
                (map (fun j => 1000 * Z.of_nat j) (seq 1 k))).
  { unfold Chat.sendWithRetry.
    replace (S Chat.MAX_RETRIES) with (k + S (Chat.MAX_RETRIES - k))%nat by lia.
    rewrite (retryLoop_skips send Chat.MAX_RETRIES 1000 k _ 0%nat []);
      [reflexivity | lia | intros n Hn; apply Hbusy; lia]. }
  split.
  - intros result Hres. rewrite Hskip. cbn [Chat.retryLoop].
    destruct (Nat.ltb_spec Chat.MAX_RETRIES k); [lia|]. rewrite Hres. reflexivity.
  - intros e Herr Hstatus. rewrite Hskip.
    apply retryLoop_fatal; assumption.
Qed.

Lemma retry_first_other_answer_decides_witness :
  Chat.sendWithRetry
    (fun n => nth n [Rejected Sample.overloaded; Sample.reply "ok"] (Rejected Sample.overloaded))
  = Some {| Chat.loop_end := Chat.Broke {| Chat.response_text := Resolved "ok" |};
            Chat.loop_attempts := 2; Chat.loop_waits := [1000] |}
  /\ Chat.sendWithRetry
       (fun n => nth n [Rejected Sample.overloaded; Rejected Sample.quotaExceeded]
                   (Rejected Sample.overloaded))
     = Some {| Chat.loop_end := Chat.Threw Sample.quotaExceeded;
               Chat.loop_attempts := 2; Chat.loop_waits := [1000] |}.
Proof.
  split.
  - apply (proj1 (retry_first_other_answer_decides
                    (fun n => nth n [Rejected Sample.overloaded; Sample.reply "ok"]
                                (Rejected Sample.overloaded)) 1%nat
                    ltac:(unfold Chat.MAX_RETRIES; lia)
                    ltac:(intros [|n] Hn; [eexists; split; reflexivity | lia]))).
    reflexivity.
  - apply (proj2 (retry_first_other_answer_decides
                    (fun n => nth n [Rejected Sample.overloaded; Rejected Sample.quotaExceeded]
                                (Rejected Sample.overloaded)) 1%nat
                    ltac:(unfold Chat.MAX_RETRIES; lia)
                    ltac:(intros [|n] Hn; [eexists; split; reflexivity | lia])));
      reflexivity.
Defined.

(** X7.  The loop retries on the status alone while the [catch] block
    also looks at the message: an error that says "overloaded" under a
    status other than 503 is not retried, yet it is answered with the
    503 that tells of an overload. *)
Theorem overloaded_message_not_retried (send : nat -> Settled Chat.ChatResult) e :
  send 0%nat = Rejected e ->
  statusIs e 503 = false ->
  messageIncludes e "overloaded" = true ->
  Chat.sendWithRetry send
  = Some {| Chat.loop_end := Chat.Threw e; Chat.loop_attempts := 1; Chat.loop_waits := [] |}
  /\ forall NODE_ENV,
       Chat.errorResponse NODE_ENV e
       = respond 503 [] (VObject [("error", VString Chat.overloadedMessage)]).
Proof.
  intros Hsend Hstatus Hmsg. split.
  - apply retryLoop_fatal; [lia | assumption | assumption].
  - intros NODE_ENV. unfold Chat.errorResponse. rewrite Hmsg, orb_true_r. reflexivity.
Qed.

Lemma overloaded_message_not_retried_witness :
  let e := {| err_status := Some 500; err_message := Some "The model is overloaded." |} in
  Chat.sendWithRetry (fun _ => Rejected e)
  = Some {| Chat.loop_end := Chat.Threw e; Chat.loop_attempts := 1; Chat.loop_waits := [] |}
  /\ Chat.errorResponse None e
     = respond 503 [] (VObject [("error", VString Chat.overloadedMessage)]).
Proof.
  intros e.
  destruct (overloaded_message_not_retried (fun _ => Rejected e) e)
    as [Hloop Hres]; [reflexivity | reflexivity | reflexivity |].
  split; [exact Hloop | exact (Hres None)].
Defined.

(** ** The [catch] block and the request body *)

Lemma errorResponse_answers NODE_ENV e :
  answersWith [500; 503] [] (Chat.errorResponse NODE_ENV e).
Proof.
  rewrite errorResponse_classify.
  destruct (Chat.classify e); eexists; (split; [reflexivity|]); simpl; auto.
Qed.

(** X8.  The [catch] block answers 503 or 500 and nothing else, and
    outside development the answer depends on the class of the error
    only: no text of the error reaches the client. *)
Theorem error_answer_hides_details NODE_ENV e :
  answersWith [500; 503] [] (Chat.errorResponse NODE_ENV e)
  /\ (NODE_ENV <> Some "development" ->
      forall e', Chat.classify e' = Chat.classify e ->
                 Chat.errorResponse NODE_ENV e' = Chat.errorResponse NODE_ENV e).
Proof.
  split; [apply errorResponse_answers|].
  intros Hprod e' Hclass. rewrite !errorResponse_classify, Hclass.
  destruct (Chat.classify e); try reflexivity.
  rewrite bool_decide_eq_false_2 by assumption. reflexivity.
Qed.

Lemma error_answer_hides_details_witness :
  Chat.errorResponse (Some "production")
    {| err_status := Some 400; err_message := Some "API key not valid: AIza..." |}
  = Chat.errorResponse (Some "production") (TypeError "x is not a function").
Proof.
  apply (proj2 (error_answer_hides_details (Some "production")
                  (TypeError "x is not a function"))).
  - discriminate.
  - reflexivity.
Defined.

Lemma mapHistory_error msgs e :
  Chat.mapHistory msgs = Rejected e -> Chat.classify e = Chat.Internal.
Proof.
  induction msgs as [|msg msgs IH]; [discriminate|]. cbn [Chat.mapHistory].
  destruct msg; try (intros [= <-]; reflexivity);
    destruct (Chat.mapHistory msgs); try discriminate; intros [= <-]; apply IH; reflexivity.
Qed.

Lemma buildHistory_error h e :
  Chat.buildHistory h = Rejected e -> Chat.classify e = Chat.Internal.
Proof.
  destruct h; cbn [Chat.buildHistory]; try discriminate;
    try (intros [= <-]; reflexivity).
  apply mapHistory_error.
Qed.

Lemma caught_internal NODE_ENV e calls slept :
  Chat.classify e = Chat.Internal ->
  statusOf (outcome (Chat.caught NODE_ENV e calls slept)) = Some 500.
Proof.
  intros Hclass. unfold Chat.caught. cbn [outcome].
  rewrite errorResponse_classify, Hclass. reflexivity.
Qed.

Lemma mapHistory_unreadable msgs :
  existsb nullish msgs = true -> exists e, Chat.mapHistory msgs = Rejected e.
Proof.
  induction msgs as [|msg msgs IH]; [discriminate|]. cbn [existsb Chat.mapHistory].
  destruct msg; cbn [nullish orb]; eauto;
    intros Hrest; destruct (IH Hrest) as [e ->]; eauto.
Qed.

Lemma buildHistory_unreadable h :
  unreadableHistory h = true -> exists e, Chat.buildHistory h = Rejected e.
Proof.
  destruct h; cbn [unreadableHistory Chat.buildHistory]; try discriminate; eauto.
  apply mapHistory_unreadable.
Qed.

Section Bodies.
Context `{Chat.GeminiSdk}.

(** X9.  In the in-memory chat handler, an admitted POST request that
    cannot be read is answered 500, not 400, and nothing is sent
    upstream: that is so when the body is [null] or [undefined], and
    when, with a message present, the history is neither absent nor an
    array or is an array that holds a [null] or [undefined] entry. *)
Theorem chat_unreadable_request_500 NODE_ENV now iso req
    (requestCounts : gmap string ChatMem.RateRecord) :
  method req = "POST" ->
  (ChatMem.checkRateLimit (clientIpOf req) now requestCounts).1 = true ->
  nullish (body req) = true
  \/ truthy (optGet (body req) "message") = true
     /\ unreadableHistory (optGet (body req) "conversationHistory") = true ->
  exists run,
    ChatMem.handler NODE_ENV now iso req requestCounts
    = Some (run, (ChatMem.checkRateLimit (clientIpOf req) now requestCounts).2)
    /\ statusOf (outcome run) = Some 500
    /\ attempts run = 0%nat.
Proof.
  intros Hpost Hadmit Hbad. unfold ChatMem.handler. rewrite Hpost.
  cbn [String.eqb Ascii.eqb Bool.eqb negb].
  destruct (ChatMem.checkRateLimit (clientIpOf req) now requestCounts) as [ok m'].
  cbn [fst snd] in *. subst ok. cbn [negb]. unfold Chat.answer.
  destruct Hbad as [Hbody | [Hmsg Hhist]].
  - rewrite Hbody. eexists. split; [reflexivity|].
    split; [|reflexivity]. apply caught_internal.
    destruct (body req); try discriminate; reflexivity.
  - destruct (buildHistory_unreadable _ Hhist) as [e He].
    rewrite (truthy_field_not_nullish _ _ Hmsg), Hmsg, He. cbn [negb].
    eexists. split; [reflexivity|]. split; [|reflexivity].
    apply caught_internal, (buildHistory_error _ _ He).
Qed.

End Bodies.

Lemma chat_unreadable_request_500_witness :
  (exists run,
     @ChatMem.handler (Sample.scriptedSdk [Sample.reply "ok"]) None 5000
       "2025-10-24T13:52:00.000Z" (Sample.post "10.0.0.1" VNull) ∅
     = Some (run, {[ "10.0.0.1" := {| ChatMem.count := 1; ChatMem.resetTime := 3605000 |} ]})
     /\ statusOf (outcome run) = Some 500 /\ attempts run = 0%nat)
  /\ (exists run,
        @ChatMem.handler (Sample.scriptedSdk [Sample.reply "ok"]) None 5000
          "2025-10-24T13:52:00.000Z"
          (Sample.post "10.0.0.1"
             (VObject [("message", VString "Who was Moses?");
                       ("conversationHistory",
                        VArray [VObject [("role", VString "user")]; VNull])])) ∅
        = Some (run, {[ "10.0.0.1" := {| ChatMem.count := 1; ChatMem.resetTime := 3605000 |} ]})
        /\ statusOf (outcome run) = Some 500 /\ attempts run = 0%nat).
Proof.
  split.
  - destruct (@chat_unreadable_request_500 (Sample.scriptedSdk [Sample.reply "ok"]) None 5000
                "2025-10-24T13:52:00.000Z" (Sample.post "10.0.0.1" VNull) ∅)
      as (run & Hrun & Hstatus & Hcalls);
      [reflexivity | vm_compute; reflexivity | left; reflexivity |].
    exists run. split; [exact Hrun | split; assumption].
  - destruct (@chat_unreadable_request_500 (Sample.scriptedSdk [Sample.reply "ok"]) None 5000
                "2025-10-24T13:52:00.000Z"
                (Sample.post "10.0.0.1"
                   (VObject [("message", VString "Who was Moses?");
                             ("conversationHistory",
                              VArray [VObject [("role", VString "user")]; VNull])])) ∅)
      as (run & Hrun & Hstatus & Hcalls);
      [reflexivity | vm_compute; reflexivity | right; split; reflexivity |].
    exists run. split; [exact Hrun | split; assumption].
Defined.

(** X10.  The history is converted entry by entry, in order: when no
    entry is [null] or [undefined] the conversion yields one content per
    message, and as soon as one is, it throws. *)
Theorem history_conversion (msgs : list jsval) :
  (Forall (fun msg => nullish msg = false) msgs ->
   Chat.mapHistory msgs = Resolved (map contentOf msgs))
  /\ (Exists (fun msg => nullish msg = true) msgs ->
      exists e, Chat.mapHistory msgs = Rejected e).
Proof.
  split.
  - induction 1 as [|msg msgs Hmsg _ IH]; [reflexivity|].
    cbn [Chat.mapHistory map]. rewrite IH.
    destruct msg; try discriminate; reflexivity.
  - induction msgs as [|msg msgs IH]; intros Hex; [inversion Hex|].
    cbn [Chat.mapHistory].
    destruct msg; eauto;
      (apply Exists_cons in Hex as [Hhd|Htl]; [discriminate|]);
      destruct (IH Htl) as [e ->]; eauto.
Qed.

Lemma history_conversion_witness :
  Chat.mapHistory
    [VObject [("role", VString "user"); ("content", VString "Tell me about Genesis")];
     VObject [("role", VString "model")]]
  = Resolved
      [{| Chat.role := VString "user"; Chat.text := VString "Tell me about Genesis" |};
       {| Chat.role := VString "model"; Chat.text := VUndefined |}]
  /\ exists e, Chat.mapHistory [VObject [("role", VString "user")]; VNull] = Rejected e.
Proof.
  split.
  - exact (proj1 (history_conversion
                    [VObject [("role", VString "user");
                              ("content", VString "Tell me about Genesis")];
                     VObject [("role", VString "model")]])
             ltac:(repeat constructor)).
  - apply (proj2 (history_conversion _)). apply Exists_cons_tl, Exists_cons_hd. reflexivity.
Defined.

(** X11.  The key of the caller is never empty: it is the forwarded
    address when that header is set and not empty, else the address of
    the socket when that is known and not empty, else ["unknown"], which
    all callers without an address share. *)
Theorem client_key_never_empty req :
  clientIpOf req <> ""
  /\ (forall h, headers req !! "x-forwarded-for" = Some h -> h <> "" -> clientIpOf req = h)
  /\ (headers req !! "x-forwarded-for" = None \/ headers req !! "x-forwarded-for" = Some "" ->
      (forall a, remoteAddress (socket req) = Some a -> a <> "" -> clientIpOf req = a)
      /\ (remoteAddress (socket req) = None \/ remoteAddress (socket req) = Some "" ->
          clientIpOf req = "unknown")).
Proof.
  unfold clientIpOf. repeat split.
  - destruct (orElse (headers req !! "x-forwarded-for") (remoteAddress (socket req)))
      as [ip|] eqn:Hip; cbn [orElse]; [|discriminate].
    destruct (String.eqb_spec ip ""); [discriminate | assumption].
  - intros h Hh Hne. rewrite Hh. cbn [orElse].
    destruct (String.eqb_spec h ""); [contradiction|]. cbn [orElse].
    destruct (String.eqb_spec h ""); [contradiction | reflexivity].
  - intros a Ha Hne. destruct H as [-> | ->]; rewrite Ha; cbn [orElse String.eqb];
      (destruct (String.eqb_spec a ""); [contradiction | reflexivity]).
  - intros Haddr. destruct H as [-> | ->], Haddr as [-> | ->]; reflexivity.
Qed.

Lemma client_key_never_empty_witness :
  let direct :=
    {| method := "POST"; headers := {[ "x-forwarded-for" := "" ]};
       socket := {| remoteAddress := Some "192.0.2.7" |}; body := VNull |} in
  let nameless :=
    {| method := "POST"; headers := ∅; socket := {| remoteAddress := None |}; body := VNull |} in
  clientIpOf direct = "192.0.2.7"
  /\ clientIpOf nameless = "unknown"
  /\ clientIpOf (Sample.ask "10.0.0.1" "Who was Moses?") = "10.0.0.1".
Proof.
  intros direct nameless.
  destruct (client_key_never_empty direct) as (_ & _ & Hdirect).
  destruct (client_key_never_empty nameless) as (_ & _ & Hnameless).
  destruct (client_key_never_empty (Sample.ask "10.0.0.1" "Who was Moses?")) as (_ & Hfwd & _).
  split; [|split].
  - apply Hdirect; [right; reflexivity | reflexivity | discriminate].
  - apply Hnameless; left; reflexivity.
  - apply Hfwd; [reflexivity | discriminate].
Defined.

(** ** What the in-memory chat handler can answer *)

Lemma answersWith_incl codes codes' hdrs o :
  incl codes codes' -> answersWith codes hdrs o -> answersWith codes' hdrs o.
Proof. intros Hincl (r & -> & Hin & Hh). exists r. auto. Qed.

Lemma sendWithRetry_shape (send : nat -> Settled Chat.ChatResult) :
  exists lr k,
    Chat.sendWithRetry send = Some lr
    /\ (k <= Chat.MAX_RETRIES)%nat
    /\ Chat.loop_attempts lr = S k
    /\ Chat.loop_waits lr = map (fun j => 1000 * Z.of_nat j) (seq 1 k)
    /\ Chat.loop_end lr <> Chat.Fell.
Proof.
  destruct (sendWithRetry_total send) as [lr Hlr].
  assert (Hle : (0 <= Chat.MAX_RETRIES)%nat) by lia.
  destruct (retryLoop_shape send Chat.MAX_RETRIES 1000 _ 0%nat [] lr Hle Hlr)
    as (k & Hk & Ha & Hw & He).
  exists lr, k. repeat split; assumption.
Qed.

Lemma waits_total k :
  (k <= Chat.MAX_RETRIES)%nat ->
  fold_right Z.add 0 (map (fun j => 1000 * Z.of_nat j) (seq 1 k)) <= 3000.
Proof.
  unfold Chat.MAX_RETRIES. intros Hk.
  destruct k as [|[|[|k]]]; simpl; lia.
Qed.

Section MemContract.
Context `{Chat.GeminiSdk}.

Lemma answer_contract NODE_ENV iso req :
  exists run,
    Chat.answer NODE_ENV iso req = Some run
    /\ answersWith [200; 400; 500; 503] [] (outcome run)
    /\ (attempts run <= 3)%nat
    /\ fold_right Z.add 0 (waits run) <= 3000.
Proof.
  assert (Hcaught : forall e calls slept,
             answersWith [200; 400; 500; 503] []
               (outcome (Chat.caught NODE_ENV e calls slept))).
  { intros e calls slept. eapply answersWith_incl; [|apply errorResponse_answers].
    intros c [<-|[<-|[]]]; simpl; intuition reflexivity. }
  unfold Chat.answer.
  destruct (nullish (body req)).
  { eexists. split; [reflexivity|]. split; [apply Hcaught|]. simpl. split; lia. }
  destruct (truthy (optGet (body req) "message")); cbn [negb].
  2:{ eexists. split; [reflexivity|]. split; [|simpl; split; lia].
      eexists. split; [reflexivity|]. simpl. intuition reflexivity. }
  destruct (Chat.buildHistory _) as [history|e].
  2:{ eexists. split; [reflexivity|]. split; [apply Hcaught|]. simpl. split; lia. }
  destruct (Chat.startChat history) as [chat|e].
  2:{ eexists. split; [reflexivity|]. split; [apply Hcaught|]. simpl. split; lia. }
  destruct (sendWithRetry_shape (Chat.sendMessage chat (optGet (body req) "message")))
    as (lr & k & -> & Hk & Ha & Hw & He).
  pose proof (waits_total k Hk) as Hsum. rewrite <- Hw in Hsum.
  assert (Hcalls : (Chat.loop_attempts lr <= 3)%nat)
    by (unfold Chat.MAX_RETRIES in Hk; lia).
  destruct (Chat.loop_end lr) as [result|e|].
  - destruct (Chat.response_text result) as [text|e].
    + eexists. split; [reflexivity|]. split; [|simpl; split; assumption].
      eexists. split; [reflexivity|]. simpl. intuition reflexivity.
    + eexists. split; [reflexivity|]. split; [apply Hcaught|]. simpl. split; assumption.
  - eexists. split; [reflexivity|]. split; [apply Hcaught|]. simpl. split; assumption.
  - contradiction.
Qed.

(** X12.  Every invocation of the in-memory chat handler ends with a
    response: its status is 200, 400, 405, 429, 500 or 503, never 502,
    and it carries none of the CORS headers the file declares.  It makes
    at most 3 upstream calls, sleeps at most 3000 ms in all, and changes
    the record of no address but the caller's. *)
Theorem mem_handler_contract NODE_ENV now iso req
    (requestCounts : gmap string ChatMem.RateRecord) :
  exists run requestCounts',
    ChatMem.handler NODE_ENV now iso req requestCounts = Some (run, requestCounts')
    /\ answersWith [200; 400; 405; 429; 500; 503] [] (outcome run)
    /\ (attempts run <= 3)%nat
    /\ fold_right Z.add 0 (waits run) <= 3000
    /\ forall ip, ip <> clientIpOf req -> requestCounts' !! ip = requestCounts !! ip.
Proof.
  unfold ChatMem.handler.
  destruct (String.eqb (method req) "OPTIONS").
  { do 2 eexists. split; [reflexivity|]. split; [|simpl; repeat split; lia].
    eexists. split; [reflexivity|]. simpl. intuition reflexivity. }
  destruct (negb (String.eqb (method req) "POST")).
  { do 2 eexists. split; [reflexivity|]. split; [|simpl; repeat split; lia].
    eexists. split; [reflexivity|]. simpl. intuition reflexivity. }
  assert (Hother : forall ip, ip <> clientIpOf req ->
             (ChatMem.checkRateLimit (clientIpOf req) now requestCounts).2 !! ip
             = requestCounts !! ip).
  { intros ip Hne. apply check_other. congruence. }
  destruct (ChatMem.checkRateLimit (clientIpOf req) now requestCounts) as [ok m'].
  cbn [snd] in Hother. destruct ok; cbn [negb].
  - destruct (answer_contract NODE_ENV iso req) as (run & -> & Hans & Hcalls & Hsum).
    do 2 eexists. split; [reflexivity|]. repeat split; try assumption.
    eapply answersWith_incl; [|exact Hans].
    intros c [<-|[<-|[<-|[<-|[]]]]]; simpl; intuition reflexivity.
  - do 2 eexists. split; [reflexivity|]. split; [|simpl; repeat split; try lia; assumption].
    eexists. split; [reflexivity|]. simpl. intuition reflexivity.
Qed.

End MemContract.

(** ** More on the coordinators *)

Section Tiers.
Import Upstash.
Context {Store : Type} `{Limiter Store}.

(** Splits the next [limit] call of the goal by its answer. *)
Ltac next_call :=
  match goal with
  | |- context [callLimit ?rl ?key ?w] =>
      let a := fresh "a" in
      let e := fresh "e" in
      let s := fresh "s" in
      let Hl := fresh "Hl" in
      destruct (limit rl key (store w)) as [[a|e] s] eqn:Hl;
      rewrite (callLimit_eq rl key w _ _ Hl);
      [destruct (success a) eqn:?; cbn [negb]|]
  end.

(** X13.  An environment variable that is unset or empty leaves the
    limiters off: the coordinators of both handlers then admit every
    caller without a single call to the store.  With both variables set,
    the first call of the chat coordinator goes to the daily tier of 900
    and that of the speech coordinator to the per-minute tier of 10, on
    the key ["global"]. *)
Theorem empty_environment_disables_limits url token ip (w : World Store) :
  (isSet url = false \/ isSet token = false ->
   ChatRedis.checkRateLimit (ChatRedis.init url token) ip w = (allow, w)
   /\ Tts.checkRateLimit (Tts.init url token) ip w = (allow, w))
  /\ (isSet url = true -> isSet token = true ->
      (exists rl answer later,
         limitCalls (ChatRedis.checkRateLimit (ChatRedis.init url token) ip w).2
         = limitCalls w ++ (rl, "global", answer) :: later
         /\ tokens rl = 900 /\ window rl = "24 h" /\ prefix rl = "ratelimit:global:daily")
      /\ (exists rl answer later,
            limitCalls (Tts.checkRateLimit (Tts.init url token) ip w).2
            = limitCalls w ++ (rl, "global", answer) :: later
            /\ tokens rl = 10 /\ window rl = "1 m"
            /\ prefix rl = "ratelimit:tts:global:rpm")).
Proof.
  split.
  - intros Hunset. unfold ChatRedis.init, Tts.init.
    assert (isSet url && isSet token = false) as ->
        by (destruct Hunset as [-> | ->]; [reflexivity | apply andb_false_r]).
    split; reflexivity.
  - intros Hurl Htoken. unfold ChatRedis.init, Tts.init. rewrite Hurl, Htoken. cbn [andb].
    split.
    + unfold ChatRedis.checkRateLimit.
      cbn [ChatRedis.redis ChatRedis.perUserRatelimit ChatRedis.globalDailyRatelimit
           ChatRedis.globalRpmRatelimit].
      next_call; [next_call; [next_call| |]| |];
        cbn [snd limitCalls]; rewrite <- ?app_assoc; cbn [app];
        try (destruct (success _)); do 3 eexists; (split; [reflexivity|]);
        repeat split.
    + unfold Tts.checkRateLimit.
      cbn [Tts.redis Tts.perUserRatelimit Tts.globalRpmRatelimit].
      next_call; [next_call| |];
        cbn [snd limitCalls]; rewrite <- ?app_assoc; cbn [app];
        try (destruct (success _)); do 3 eexists; (split; [reflexivity|]);
        repeat split.
Qed.

(** X14.  The decisions of the chat coordinator have one of two shapes:
    [{ allowed: true }] alone, or a denial that carries a reason (one of
    [daily_limit], [rpm_limit], [user_limit]), a message and the reset
    time the store returned with the denying call, which is the last call
    made. *)
Theorem chat_decision_shape (m : ChatRedis.Limiters) ip (w : World Store) :
  let d := (ChatRedis.checkRateLimit m ip w).1 in
  let w' := (ChatRedis.checkRateLimit m ip w).2 in
  (allowed d = true -> d = allow)
  /\ (allowed d = false ->
      exists why msg rl key denial,
        d = ChatRedis.deny why msg (reset denial)
        /\ In why ["daily_limit"; "rpm_limit"; "user_limit"]
        /\ success denial = false
        /\ last (limitCalls w') = Some (rl, key, Resolved denial)
        /\ limitCalls w' <> limitCalls w).
Proof.
  cbn zeta. unfold ChatRedis.checkRateLimit.
  destruct (ChatRedis.redis m), (ChatRedis.perUserRatelimit m),
    (ChatRedis.globalDailyRatelimit m), (ChatRedis.globalRpmRatelimit m);
    try (split; [reflexivity | discriminate]).
  next_call; [next_call; [next_call| |]| |]; cbn [fst snd limitCalls];
    (split; [try reflexivity; discriminate | try discriminate]); intros _;
    do 5 eexists; (split; [reflexivity|]);
    (split; [simpl; intuition reflexivity|]);
    (split; [eassumption|]);
    (split; [rewrite ?app_assoc; apply last_snoc|]);
    rewrite <- ?app_assoc; intros Heq;
    apply (f_equal (@List.length _)) in Heq; rewrite length_app in Heq; simpl in Heq; lia.
Qed.

(** X15.  With its limiters in place the chat coordinator makes one,
    two or three calls, in the order daily tier, per-minute tier,
    caller's tier: the two global tiers on the key ["global"] and the
    caller's tier on the caller's key.  Every call before the last was
    admitted. *)
Theorem chat_call_discipline (m : ChatRedis.Limiters) r perUser globalDaily globalRpm ip
    (w : World Store) :
  ChatRedis.redis m = Some r ->
  ChatRedis.perUserRatelimit m = Some perUser ->
  ChatRedis.globalDailyRatelimit m = Some globalDaily ->
  ChatRedis.globalRpmRatelimit m = Some globalRpm ->
  exists new,
    limitCalls (ChatRedis.checkRateLimit m ip w).2 = limitCalls w ++ new
    /\ new <> []
    /\ map fst new `prefix_of` [(globalDaily, "global"); (globalRpm, "global"); (perUser, ip)]
    /\ Forall (fun c => exists a, c.2 = Resolved a /\ success a = true) (removelast new).
Proof.
  intros Hr Hu Hd Hm. unfold ChatRedis.checkRateLimit. rewrite Hr, Hu, Hd, Hm.
  next_call; [next_call; [next_call| |]| |]; cbn [snd limitCalls];
    rewrite <- ?app_assoc; cbn [app];
    eexists; (split; [reflexivity|]); (split; [discriminate|]);
    (split; [cbn [map fst];
             first [ by exists [] | by eexists [_] | by eexists [_; _] ]|]);
    cbn [removelast]; repeat constructor; cbn [snd]; eauto.
Qed.

(** X16.  When both global tiers admit the request, the caller's tier
    decides: its denial is reported as [user_limit], with its reset time
    and the message about 50 questions a day; its admission, or its
    failure, admits the request.  The store is the one left by the three
    calls. *)
Theorem chat_caller_tier_decides (m : ChatRedis.Limiters) r perUser globalDaily globalRpm ip
    (w : World Store) daily s1 rpm s2 user s3 :
  ChatRedis.redis m = Some r ->
  ChatRedis.perUserRatelimit m = Some perUser ->
  ChatRedis.globalDailyRatelimit m = Some globalDaily ->
  ChatRedis.globalRpmRatelimit m = Some globalRpm ->
  limit globalDaily "global" (store w) = (Resolved daily, s1) -> success daily = true ->
  limit globalRpm "global" s1 = (Resolved rpm, s2) -> success rpm = true ->
  limit perUser ip s2 = (user, s3) ->
  store (ChatRedis.checkRateLimit m ip w).2 = s3
  /\ (ChatRedis.checkRateLimit m ip w).1
     = match user with
       | Resolved answer =>
           if success answer then allow
           else ChatRedis.deny "user_limit"
                  "You have reached your daily limit of 50 questions. Please try again tomorrow."
                  (reset answer)
       | Rejected _ => allow
       end.
Proof.
  intros Hr Hu Hd Hm Hdaily Hok1 Hrpm Hok2 Huser.
  unfold ChatRedis.checkRateLimit. rewrite Hr, Hu, Hd, Hm.
  rewrite (callLimit_eq _ _ _ _ _ Hdaily), Hok1. cbn [negb].
  rewrite (callLimit_at _ _ _ _ _ _ Hrpm), Hok2. cbn [negb].
  rewrite (callLimit_at _ _ _ _ _ _ Huser).
  destruct user as [answer|e]; [destruct (success answer)|]; split; reflexivity.
Qed.

End Tiers.

Lemma empty_environment_disables_limits_witness :
  @ChatRedis.checkRateLimit _ Sample.counterLimit
     (ChatRedis.init (Some "https://redis.example") (Some "")) "10.0.0.1" (Sample.start ∅)
  = (Upstash.allow, Sample.start ∅)
  /\ exists rl answer later,
       Upstash.limitCalls
         (@Tts.checkRateLimit _ Sample.counterLimit
            (Tts.init (Some "https://redis.example") (Some "secret")) "10.0.0.1"
            (Sample.start ∅)).2
       = (rl, "global", answer) :: later
       /\ Upstash.tokens rl = 10.
Proof.
  destruct (@empty_environment_disables_limits _ Sample.counterLimit
              (Some "https://redis.example") (Some "") "10.0.0.1" (Sample.start ∅))
    as [Hoff _].
  destruct (@empty_environment_disables_limits _ Sample.counterLimit
              (Some "https://redis.example") (Some "secret") "10.0.0.1" (Sample.start ∅))
    as [_ Hon].
  split.
  - apply Hoff. right. reflexivity.
  - destruct (Hon eq_refl eq_refl) as (_ & rl & answer & later & Hlog & Htokens & _).
    exists rl, answer, later. split; assumption.
Defined.

Lemma chat_decision_shape_witness :
  let counters : gmap string Z := {[ "ratelimit:global:rpm:global" := 12 ]} in
  exists t,
    (@ChatRedis.checkRateLimit _ Sample.counterLimit Sample.chatLimiters "10.0.0.1"
       (Sample.start counters)).1
    = ChatRedis.deny "rpm_limit" "Too many requests per minute. Please wait a moment." t.
Proof.
  intros counters.
  destruct (@chat_decision_shape _ Sample.counterLimit Sample.chatLimiters "10.0.0.1"
              (Sample.start counters)) as [_ Hdenied].
  destruct (Hdenied ltac:(vm_compute; reflexivity))
    as (why & msg & rl & key & denial & Hd & _).
  exists (Upstash.reset denial). rewrite Hd.
  assert (Hcomputed :
            (@ChatRedis.checkRateLimit _ Sample.counterLimit Sample.chatLimiters "10.0.0.1"
               (Sample.start counters)).1
            = ChatRedis.deny "rpm_limit" "Too many requests per minute. Please wait a moment."
                60000) by (vm_compute; reflexivity).
  rewrite Hd in Hcomputed. injection Hcomputed as -> -> ->. reflexivity.
Defined.

Lemma chat_call_discipline_witness :
  exists new,
    Upstash.limitCalls
      (@ChatRedis.checkRateLimit _ Sample.counterLimit Sample.chatLimiters "10.0.0.1"
         (Sample.start ∅)).2 = new
    /\ length new = 3%nat.
Proof.
  destruct (@chat_call_discipline _ Sample.counterLimit Sample.chatLimiters
              {| Upstash.url := "https://redis.example"; Upstash.token := "secret" |}
              {| Upstash.redis := {| Upstash.url := "https://redis.example"; Upstash.token := "secret" |};
                 Upstash.tokens := 50; Upstash.window := "24 h";
                 Upstash.prefix := "ratelimit:user" |}
              {| Upstash.redis := {| Upstash.url := "https://redis.example"; Upstash.token := "secret" |};
                 Upstash.tokens := 900; Upstash.window := "24 h";
                 Upstash.prefix := "ratelimit:global:daily" |}
              {| Upstash.redis := {| Upstash.url := "https://redis.example"; Upstash.token := "secret" |};
                 Upstash.tokens := 12; Upstash.window := "1 m";
                 Upstash.prefix := "ratelimit:global:rpm" |}
              "10.0.0.1" (Sample.start ∅) eq_refl eq_refl eq_refl eq_refl)
    as (new & Hlog & _).
  change (Upstash.limitCalls (Sample.start ∅) ++ new) with new in Hlog.
  exists new. split; [exact Hlog|].
  rewrite <- Hlog. vm_compute. reflexivity.
Defined.

(** The 51st question of the day of one caller. *)
Lemma chat_caller_tier_decides_witness :
  let counters : gmap string Z := {[ "ratelimit:user:10.0.0.1" := 50 ]} in
  (@ChatRedis.checkRateLimit _ Sample.counterLimit Sample.chatLimiters "10.0.0.1"
     (Sample.start counters)).1
  = ChatRedis.deny "user_limit"
      "You have reached your daily limit of 50 questions. Please try again tomorrow." 86400000.
Proof.
  intros counters.
  destruct (@chat_caller_tier_decides _ Sample.counterLimit Sample.chatLimiters
              {| Upstash.url := "https://redis.example"; Upstash.token := "secret" |}
              {| Upstash.redis := {| Upstash.url := "https://redis.example"; Upstash.token := "secret" |};
                 Upstash.tokens := 50; Upstash.window := "24 h";
                 Upstash.prefix := "ratelimit:user" |}
              {| Upstash.redis := {| Upstash.url := "https://redis.example"; Upstash.token := "secret" |};
                 Upstash.tokens := 900; Upstash.window := "24 h";
                 Upstash.prefix := "ratelimit:global:daily" |}
              {| Upstash.redis := {| Upstash.url := "https://redis.example"; Upstash.token := "secret" |};
                 Upstash.tokens := 12; Upstash.window := "1 m";
                 Upstash.prefix := "ratelimit:global:rpm" |}
              "10.0.0.1" (Sample.start counters)
              {| Upstash.success := true; Upstash.reset := 86400000 |}
              (<["ratelimit:global:daily:global" := 1]> counters)
              {| Upstash.success := true; Upstash.reset := 60000 |}
              (<["ratelimit:global:rpm:global" := 1]>
                 (<["ratelimit:global:daily:global" := 1]> counters))
              (Resolved {| Upstash.success := false; Upstash.reset := 86400000 |})
              (<["ratelimit:user:10.0.0.1" := 51]>
                 (<["ratelimit:global:rpm:global" := 1]>
                    (<["ratelimit:global:daily:global" := 1]> counters))))
    as [_ Hd]; [first [reflexivity | vm_compute; reflexivity] .. | exact Hd].
Defined.

(** ** Requests that are not POST *)

Section OtherMethods.
Import Upstash.
Context {Store : Type} `{Limiter Store} `{Chat.GeminiSdk} `{Tts.Fetch}.

(** X17.  A request whose method is not exactly ["POST"] is answered 200
    when the method is ["OPTIONS"] and 405 otherwise by all three
    handlers, before anything else happens: no counter is touched, no
    admission check is started and nothing is sent upstream. *)
Theorem other_methods_touch_nothing req :
  method req <> "POST" ->
  let code := if String.eqb (method req) "OPTIONS" then 200 else 405 in
  (forall NODE_ENV now iso (requestCounts : gmap string ChatMem.RateRecord),
     exists run,
       ChatMem.handler NODE_ENV now iso req requestCounts = Some (run, requestCounts)
       /\ statusOf (outcome run) = Some code /\ attempts run = 0%nat)
  /\ (forall (m : ChatRedis.Limiters) NODE_ENV iso (w : World Store),
        exists run,
          ChatRedis.handler m NODE_ENV iso req w = {| ChatRedis.run := Some run;
                                                      ChatRedis.admission := None |}
          /\ statusOf (outcome run) = Some code /\ attempts run = 0%nat)
  /\ (forall (m : Tts.Limiters) key (w : World Store),
        exists run,
          Tts.handler m key req w = (run, w)
          /\ statusOf (outcome run) = Some code /\ attempts run = 0%nat).
Proof.
  intros Hother code. subst code.
  assert (Hpost : String.eqb (method req) "POST" = false)
    by (apply String.eqb_neq; assumption).
  unfold ChatMem.handler, ChatRedis.handler, Tts.handler. rewrite Hpost. cbn [negb].
  destruct (String.eqb (method req) "OPTIONS");
    repeat split; intros; eexists; repeat split.
Qed.

End OtherMethods.

Lemma other_methods_touch_nothing_witness :
  exists run,
    @Tts.handler _ Sample.counterLimit (Sample.fixedFetch (Rejected Sample.overloaded))
      Sample.ttsLimiters (Some "key")
      {| method := "post"; headers := ∅; socket := {| remoteAddress := None |};
         body := VObject [("text", VString "In the beginning")] |}
      (Sample.start ∅)
    = (run, Sample.start ∅)
    /\ statusOf (outcome run) = Some 405 /\ attempts run = 0%nat.
Proof.
  destruct (@other_methods_touch_nothing _ Sample.counterLimit
              (Sample.scriptedSdk []) (Sample.fixedFetch (Rejected Sample.overloaded))
              {| method := "post"; headers := ∅; socket := {| remoteAddress := None |};
                 body := VObject [("text", VString "In the beginning")] |})
    as (_ & _ & Htts); [discriminate|].
  exact (Htts Sample.ttsLimiters (Some "key") (Sample.start ∅)).
Defined.

(** ** More on the speech handler *)

Lemma append_cons a r t : String a r +:+ t = String a (r +:+ t).
Proof. reflexivity. Qed.

Lemma append_nil t : "" +:+ t = t.
Proof. reflexivity. Qed.

Lemma stripWhiteSpace_app l l' t :
  stripWhiteSpace l = Some l' -> stripWhiteSpace (l +:+ t) = Some (l' +:+ t).
Proof.
  destruct l as [|a r1]; [discriminate|]. rewrite append_cons. cbn [stripWhiteSpace].
  destruct (isWhiteSpace1 a); [intros [= <-]; reflexivity|].
  destruct r1 as [|b r2]; [discriminate|]. rewrite append_cons.
  destruct (isWhiteSpace2 a b); [intros [= <-]; reflexivity|].
  destruct r2 as [|c r3]; [discriminate|]. rewrite append_cons.
  destruct (isWhiteSpace3 a b c); [intros [= <-]; reflexivity | discriminate].
Qed.

(** The bytes after the first of a white-space character of two or three
    bytes continue it; the first byte of a white-space character does
    not continue another. *)
Lemma isWhiteSpace2_continues a b : isWhiteSpace2 a b = true -> isContinuation b = true.
Proof.
  unfold isWhiteSpace2, isContinuation.
  rewrite !andb_true_iff, !N.eqb_eq, !N.leb_le. lia.
Qed.

Lemma isWhiteSpace3_continues a b c :
  isWhiteSpace3 a b c = true -> isContinuation b = true /\ isContinuation c = true.
Proof.
  unfold isWhiteSpace3, isContinuation.
  rewrite !orb_true_iff, !andb_true_iff, !orb_true_iff, !andb_true_iff,
    !N.eqb_eq, !N.leb_le. lia.
Qed.

Lemma blank_starts_a_character b r :
  allWhiteSpace (String b r) = true -> isContinuation b = false.
Proof.
  intros Hblank.
  assert (Hlead : (byte b <= 32 \/ 194 <= byte b)%N).
  { cbn [allWhiteSpace] in Hblank.
    destruct (isWhiteSpace1 b) eqn:H1.
    { unfold isWhiteSpace1 in H1.
      rewrite orb_true_iff, andb_true_iff, N.eqb_eq, !N.leb_le in H1. lia. }
    destruct r as [|c r2]; [discriminate|].
    destruct (isWhiteSpace2 b c) eqn:H2.
    { unfold isWhiteSpace2 in H2. rewrite andb_true_iff, !N.eqb_eq in H2. lia. }
    destruct r2 as [|d r3]; [discriminate|].
    destruct (isWhiteSpace3 b c d) eqn:H3; [|discriminate].
    unfold isWhiteSpace3 in H3.
    rewrite !orb_true_iff, !andb_true_iff, !orb_true_iff, !andb_true_iff,
      !N.eqb_eq, !N.leb_le in H3. lia. }
  unfold isContinuation. apply andb_false_iff.
  rewrite !N.leb_gt. lia.
Qed.

(** White space put after a string that does not start with a
    white-space character does not make it start with one. *)
Lemma stripWhiteSpace_none_app l r :
  l <> "" -> stripWhiteSpace l = None -> allWhiteSpace r = true ->
  stripWhiteSpace (l +:+ r) = None.
Proof.
  intros Hne Hnone Hblank.
  destruct l as [|a l1]; [contradiction|]. rewrite append_cons.
  cbn [stripWhiteSpace] in *.
  destruct (isWhiteSpace1 a); [discriminate|].
  destruct l1 as [|b l2]; rewrite ?append_cons, ?append_nil.
  { destruct r as [|b r2]; [reflexivity|].
    pose proof (blank_starts_a_character b r2 Hblank) as Hb.
    destruct (isWhiteSpace2 a b) eqn:H2;
      [apply isWhiteSpace2_continues in H2; congruence|].
    destruct r2 as [|c r3]; [reflexivity|].
    destruct (isWhiteSpace3 a b c) eqn:H3; [|reflexivity].
    apply isWhiteSpace3_continues in H3 as [H3 _]. congruence. }
  destruct (isWhiteSpace2 a b); [discriminate|].
  destruct l2 as [|c l3]; rewrite ?append_cons, ?append_nil.
  { destruct r as [|c r3]; [reflexivity|].
    pose proof (blank_starts_a_character c r3 Hblank) as Hc.
    destruct (isWhiteSpace3 a b c) eqn:H3; [|reflexivity].
    apply isWhiteSpace3_continues in H3 as [_ H3]. congruence. }
  destruct (isWhiteSpace3 a b c); [discriminate | reflexivity].
Qed.

Lemma allWhiteSpace_cons_eq a r :
  allWhiteSpace (String a r)
  = match stripWhiteSpace (String a r) with Some t => allWhiteSpace t | None => false end.
Proof. apply (allWhiteSpace_eq (String a r)). Qed.

Lemma allWhiteSpace_app_blank r :
  allWhiteSpace r = true -> forall t, allWhiteSpace (t +:+ r) = allWhiteSpace t.
Proof.
  intros Hblank t. induction t as [t IH] using string_length_ind.
  destruct t as [|a t0]; [exact Hblank|].
  assert (Hne : String a t0 <> "") by discriminate.
  rewrite append_cons, !allWhiteSpace_cons_eq, <- append_cons.
  destruct (stripWhiteSpace (String a t0)) as [t'|] eqn:Hstrip.
  - rewrite (stripWhiteSpace_app _ _ r Hstrip).
    apply IH, stripWhiteSpace_shorter. assumption.
  - rewrite (stripWhiteSpace_none_app _ r Hne Hstrip Hblank). reflexivity.
Qed.

Lemma trimStart_blank_app l :
  allWhiteSpace l = true -> forall t, trimStart (l +:+ t) = trimStart t.
Proof.
  induction l as [l IH] using string_length_ind. intros Hblank t.
  destruct l as [|a l0]; [reflexivity|].
  rewrite allWhiteSpace_cons_eq in Hblank.
  destruct (stripWhiteSpace (String a l0)) as [l'|] eqn:Hstrip; [|discriminate].
  rewrite trimStart_eq, (stripWhiteSpace_app _ _ t Hstrip).
  apply IH; [apply stripWhiteSpace_shorter|]; assumption.
Qed.

Lemma trimStart_app_blank r :
  allWhiteSpace r = true ->
  forall s, allWhiteSpace s = false -> trimStart (s +:+ r) = trimStart s +:+ r.
Proof.
  intros Hblank s. induction s as [s IH] using string_length_ind. intros Hink.
  destruct s as [|a s0]; [discriminate|].
  assert (Hne : String a s0 <> "") by discriminate.
  rewrite allWhiteSpace_cons_eq in Hink.
  rewrite (trimStart_eq (String a s0 +:+ r)), (trimStart_eq (String a s0)).
  destruct (stripWhiteSpace (String a s0)) as [s'|] eqn:Hstrip.
  - rewrite (stripWhiteSpace_app _ _ r Hstrip).
    apply IH; [apply stripWhiteSpace_shorter|]; assumption.
  - rewrite (stripWhiteSpace_none_app _ r Hne Hstrip Hblank). reflexivity.
Qed.

Lemma trimEnd_app_blank r :
  allWhiteSpace r = true -> forall t, trimEnd (t +:+ r) = trimEnd t.
Proof.
  intros Hblank t. induction t as [|c t IH].
  - apply trimEnd_blank. exact Hblank.
  - rewrite append_cons. cbn [trimEnd].
    change (String c (t +:+ r)) with (String c t +:+ r).
    rewrite (allWhiteSpace_app_blank r Hblank (String c t)), IH. reflexivity.
Qed.

(** [trim] takes the white space on both sides away and nothing else. *)
Lemma trim_padding l s r :
  allWhiteSpace l = true -> allWhiteSpace r = true -> trim (l +:+ s +:+ r) = trim s.
Proof.
  intros Hl Hr. unfold trim. rewrite (trimStart_blank_app l Hl).
  destruct (allWhiteSpace s) eqn:Hs.
  - rewrite (trimStart_blank s Hs), trimStart_blank; [reflexivity|].
    rewrite (allWhiteSpace_app_blank r Hr). exact Hs.
  - rewrite (trimStart_app_blank r Hr s Hs). apply trimEnd_app_blank. exact Hr.
Qed.

(** X18.  White space around the text is of no account: a text with
    white-space characters of ECMAScript put before and after it gives
    the payload that the text itself gives, and is valid exactly when the
    text itself is. *)
Theorem speech_text_is_trimmed l s r :
  allWhiteSpace l = true ->
  allWhiteSpace r = true ->
  Tts.payload (l +:+ s +:+ r) = Tts.payload s
  /\ Tts.invalidText (VString (l +:+ s +:+ r)) = Tts.invalidText (VString s).
Proof.
  intros Hl Hr. split.
  - unfold Tts.payload. rewrite (trim_padding l s r Hl Hr). reflexivity.
  - rewrite !invalidText_blankText. cbn [Tts.blankText].
    rewrite <- (trim_length_blank (l +:+ s +:+ r)), <- (trim_length_blank s),
      (trim_padding l s r Hl Hr). reflexivity.
Qed.

(** A Telugu word between U+3000 and a line end with U+00A0. *)
Lemma speech_text_is_trimmed_witness :
  Tts.payload (Sample.bytes [227; 128; 128]%N +:+ Sample.telugu
               +:+ Sample.bytes [13; 10; 194; 160]%N)
  = Tts.payload Sample.telugu
  /\ trim (Sample.bytes [227; 128; 128]%N +:+ Sample.telugu
           +:+ Sample.bytes [13; 10; 194; 160]%N)
     = Sample.telugu.
Proof.
  destruct (speech_text_is_trimmed (Sample.bytes [227; 128; 128]%N) Sample.telugu
              (Sample.bytes [13; 10; 194; 160]%N)) as [Hpayload _];
    [reflexivity | reflexivity |].
  split; [exact Hpayload | reflexivity].
Defined.

Section SpeechMore.
Import Upstash.
Context {Store : Type} `{Limiter Store} `{Tts.Fetch}.


Lemma synthesize_answers key s :
  answersWith [200; 500; 502] Tts.corsHeaders (outcome (Tts.synthesize key s)).
Proof.
  unfold Tts.synthesize.
  destruct (Tts.fetch _ _) as [g|e];
    [|eexists; split; [reflexivity|]; simpl; intuition reflexivity].
  destruct (Tts.ok g); cbn [negb].
  - destruct (Tts.fetch_json g) as [data|e];
      [|eexists; split; [reflexivity|]; simpl; intuition reflexivity].
    destruct (negb _); eexists; (split; [reflexivity|]); simpl; intuition reflexivity.
  - destruct (Tts.fetch_text g);
      eexists; (split; [reflexivity|]); simpl; intuition reflexivity.
Qed.

(** X19.  Whatever the speech handler answers carries the three CORS
    headers, and its status is 200, 400, 405, 429, 500 or 502, never
    503.  The one invocation that sends no response is that of a POST
    request without a body. *)
Theorem speech_contract (m : Tts.Limiters) key req (w : World Store) :
  answersWith [200; 400; 405; 429; 500; 502] Tts.corsHeaders
    (outcome (Tts.handler m key req w).1)
  \/ (exists e, outcome (Tts.handler m key req w).1 = Unhandled e)
     /\ method req = "POST" /\ nullish (body req) = true.
Proof.
  unfold Tts.handler, await.
  destruct (String.eqb (method req) "OPTIONS");
    [left; eexists; split; [reflexivity|]; simpl; intuition reflexivity|].
  destruct (String.eqb_spec (method req) "POST") as [Hpost|]; cbn [negb];
    [|left; eexists; split; [reflexivity|]; simpl; intuition reflexivity].
  cbn [eventual].
  destruct (Tts.checkRateLimit m (clientIpOf req) w) as [d w'].
  destruct (negb (allowed d));
    [left; eexists; split; [reflexivity|]; simpl; intuition reflexivity|].
  destruct (nullish (body req)); [right; eauto|].
  destruct (Tts.invalidText _);
    [left; eexists; split; [reflexivity|]; simpl; intuition reflexivity|].
  destruct (optGet (body req) "text");
    try (left; eexists; split; [reflexivity|]; simpl; intuition reflexivity).
  left. cbn [fst]. eapply answersWith_incl; [|apply synthesize_answers].
  intros c [<-|[<-|[<-|[]]]]; simpl; intuition reflexivity.
Qed.

(** X20.  An admitted POST request to the speech handler that has no
    body is not answered at all: the destructuring of the body throws
    outside the [try] block and the exception leaves the handler, after
    the admission check has run and with nothing sent upstream. *)
Theorem speech_missing_body_escapes (m : Tts.Limiters) key req (w : World Store) :
  method req = "POST" ->
  allowed (Tts.checkRateLimit m (clientIpOf req) w).1 = true ->
  nullish (body req) = true ->
  Tts.handler m key req w
  = (noUpstream (Unhandled (cannotDestructure "text" (body req))),
     (Tts.checkRateLimit m (clientIpOf req) w).2).
Proof.
  intros Hpost Hallowed Hbody. unfold Tts.handler, await. rewrite Hpost.
  cbn [String.eqb Ascii.eqb Bool.eqb negb eventual].
  destruct (Tts.checkRateLimit m (clientIpOf req) w) as [d w'].
  cbn [fst snd] in *. rewrite Hallowed, Hbody. reflexivity.
Qed.


(** X22.  The speech handler answers a POST request with 200 only when
    the upstream reply was ok and its first part holds audio data, and
    then with exactly that data and its MIME type. *)
Theorem speech_200_has_audio (m : Tts.Limiters) key req (w : World Store) :
  method req = "POST" ->
  statusOf (outcome (Tts.handler m key req w).1) = Some 200 ->
  exists s g data,
    optGet (body req) "text" = VString s
    /\ Tts.fetch (Tts.endpoint key) (Tts.payload s) = Resolved g
    /\ Tts.ok g = true
    /\ Tts.fetch_json g = Resolved data
    /\ truthy (optGet (optGet (Tts.firstPart data) "inlineData") "data") = true
    /\ outcome (Tts.handler m key req w).1
       = respond 200 Tts.corsHeaders
           (VObject [("audioData", optGet (optGet (Tts.firstPart data) "inlineData") "data");
                     ("mimeType", optGet (optGet (Tts.firstPart data) "inlineData") "mimeType")]).
Proof.
  intros Hpost. unfold Tts.handler, await. rewrite Hpost.
  cbn [String.eqb Ascii.eqb Bool.eqb negb eventual].
  destruct (Tts.checkRateLimit m (clientIpOf req) w) as [d w'].
  destruct (negb (allowed d)); [discriminate|].
  destruct (nullish (body req)); [discriminate|].
  destruct (Tts.invalidText _); [discriminate|].
  destruct (optGet (body req) "text") as [| | | |s| | |]; try discriminate.
  cbn [fst]. unfold Tts.synthesize.
  destruct (Tts.fetch _ _) as [g|e] eqn:Hfetch; [|discriminate].
  destruct (Tts.ok g) eqn:Hok; cbn [negb];
    [|destruct (Tts.fetch_text g); discriminate].
  destruct (Tts.fetch_json g) as [data|e] eqn:Hjson; [|discriminate].
  destruct (truthy _) eqn:Haudio; cbn [negb]; [|discriminate].
  intros _. exists s, g, data. rewrite Hfetch. repeat split; assumption.
Qed.

(** X23.  When the store rejects every call, the speech handler does
    for every request what it does with the limiters off: the outage
    shows in no response. *)
Theorem speech_outage_is_invisible (m : Tts.Limiters) key req (w : World Store) :
  (forall rl k s, exists e s', limit rl k s = (Rejected e, s')) ->
  (Tts.handler m key req w).1 = (Tts.handler (Tts.init None None) key req w).1.
Proof.
  intros Hdown.
  assert (Hallow : (Tts.checkRateLimit m (clientIpOf req) w).1 = allow).
  { unfold Tts.checkRateLimit.
    destruct (Tts.redis m), (Tts.perUserRatelimit m), (Tts.globalRpmRatelimit m);
      try reflexivity.
    match goal with
    | |- context [callLimit ?rl ?k ?w0] =>
        destruct (Hdown rl k (store w0)) as (e & s' & Hl);
        rewrite (callLimit_eq _ _ _ _ _ Hl)
    end.
    reflexivity. }
  unfold Tts.handler, await.
  destruct (String.eqb (method req) "OPTIONS"); [reflexivity|].
  destruct (negb (String.eqb (method req) "POST")); [reflexivity|].
  cbn [eventual].
  destruct (Tts.checkRateLimit m (clientIpOf req) w) as [d w'].
  cbn [fst] in Hallow. subst d. cbn [Tts.checkRateLimit Tts.init isSet andb Tts.redis
                                      allowed allow negb].
  destruct (nullish (body req)); [reflexivity|].
  destruct (Tts.invalidText _); [reflexivity|].
  destruct (optGet (body req) "text"); reflexivity.
Qed.

End SpeechMore.

Lemma speech_missing_body_escapes_witness :
  let r :=
    @Tts.handler _ Sample.counterLimit (Sample.fixedFetch (Rejected Sample.overloaded))
      Sample.ttsLimiters (Some "key") (Sample.post "10.0.0.1" VNull) (Sample.start ∅) in
  outcome r.1
  = Unhandled (TypeError "Cannot destructure property 'text' of 'req.body' as it is null.")
  /\ attempts r.1 = 0%nat
  /\ Upstash.store r.2 !! "ratelimit:tts:user:10.0.0.1" = Some 1.
Proof.
  intros r. subst r.
  rewrite (@speech_missing_body_escapes _ Sample.counterLimit
             (Sample.fixedFetch (Rejected Sample.overloaded))
             Sample.ttsLimiters (Some "key") (Sample.post "10.0.0.1" VNull) (Sample.start ∅));
    [|reflexivity ..].
  vm_compute. repeat split.
Defined.


Lemma speech_200_has_audio_witness :
  let audio :=
    VObject [("candidates",
              VArray [VObject [("content",
                                VObject [("parts",
                                          VArray [VObject [("inlineData",
                                                            VObject [("data", VString "UklGRg==");
                                                                     ("mimeType", VString "audio/pcm;rate=24000")])]])])]])] in
  let up : Tts.Fetch :=
    Sample.fixedFetch
      (Resolved {| Tts.ok := true; Tts.fetch_status := 200;
                   Tts.fetch_text := Resolved ""; Tts.fetch_json := Resolved audio |}) in
  exists s g data,
    @Tts.fetch up (Tts.endpoint (Some "key")) (Tts.payload s) = Resolved g
    /\ Tts.fetch_json g = Resolved data
    /\ truthy (optGet (optGet (Tts.firstPart data) "inlineData") "data") = true.
Proof.
  intros audio up.
  destruct (@speech_200_has_audio _ Sample.counterLimit up Sample.ttsLimiters (Some "key")
              (Sample.speak "10.0.0.1" "In the beginning") (Sample.start ∅))
    as (s & g & data & _ & Hfetch & _ & Hjson & Haudio & _);
    [reflexivity | vm_compute; reflexivity |].
  exists s, g, data. repeat split; assumption.
Defined.

Lemma speech_outage_is_invisible_witness :
  (@Tts.handler _ Sample.outageLimit (Sample.fixedFetch (Rejected Sample.overloaded))
     Sample.ttsLimiters (Some "key") (Sample.speak "10.0.0.1" "In the beginning")
     (Sample.start ∅)).1
  = (@Tts.handler _ Sample.outageLimit (Sample.fixedFetch (Rejected Sample.overloaded))
       (Tts.init None None) (Some "key") (Sample.speak "10.0.0.1" "In the beginning")
       (Sample.start ∅)).1.
Proof.
  apply (@speech_outage_is_invisible _ Sample.outageLimit).
  intros rl k s. eexists _, _. reflexivity.
Defined.

(** Text outside ASCII: a Telugu word whose last character, U+0C20, ends
    with the byte 160 keeps that byte when the U+00A0 after it is
    trimmed; the word counts three UTF-16 code units, and the first code
    unit of U+1F600 is the surrogate U+D83D. *)
Example trim_unicode_example :
  trim (Sample.bytes [32; 224; 176; 160; 194; 160; 226; 128; 168]%N)
  = Sample.bytes [224; 176; 160]%N
  /\ utf16Length Sample.telugu = 3%nat
  /\ utf16Length (Sample.bytes [240; 159; 152; 128]%N) = 2%nat
  /\ firstCodeUnit (Sample.bytes [240; 159; 152; 128; 97]%N)
     = Sample.bytes [237; 160; 189]%N
  /\ firstCodeUnit Sample.telugu = Sample.bytes [224; 176; 134]%N
  /\ allWhiteSpace Sample.blanks = true
  /\ allWhiteSpace Sample.telugu = false.
Proof. repeat split. Qed.
